(** * Calendar assistant: the tool-call dispatcher and the run loop of [app.py]

    The development embeds [GoogleCalendarClient.create_event],
    [OpenAIAssistant.process_function_call] and
    [OpenAIAssistant.run_assistant] as executable functions over an explicit
    world: every call that leaves the process (assistant API, calendar API)
    is appended to a trace, and the answers of the two providers are read
    from oracles indexed by the number of calls already made.  Python
    exceptions are values of [exn]; a computation either returns or raises,
    and the effects performed before a raise stay in the world.

    What is taken from outside the file [app.py]:
    - [json.loads], [dateutil.parser.parse], [datetime.isoformat] and the
      [repr] of containers are parameters of the program;
    - the calendar provider may refuse an insert (its answer is a [result]);
      the assistant provider always answers, with objects typed as its SDK
      types them: a run has a status string and a list of pending tool
      calls, a message has a list of content blocks;
    - there is one thread and one run per call, so their identifiers are
      left out of the requests.

    [while True] is run with fuel: [Polling] is the loop that has not ended
    within the given number of iterations. *)

From Stdlib Require Import String Ascii List ZArith Bool Arith Lia DecimalString.
Import ListNotations.
Local Open Scope string_scope.

(** ** Python values, as [json.loads] and the Google client produce them *)

#[warnings="-register-all"]
Inductive pyval : Type :=
| PNone
| PBool (b : bool)
| PInt (n : Z)
| PFloat (is_zero : bool) (repr : string)
| PStr (s : string)
| PList (items : list pyval)
| PDict (entries : list (string * pyval)).

(** [type(v).__name__] *)
Definition type_name (v : pyval) : string :=
  match v with
  | PNone => "NoneType"
  | PBool _ => "bool"
  | PInt _ => "int"
  | PFloat _ _ => "float"
  | PStr _ => "str"
  | PList _ => "list"
  | PDict _ => "dict"
  end.

(** [bool(v)], the test performed by [if attendees] *)
Definition truthy (v : pyval) : bool :=
  match v with
  | PNone => false
  | PBool b => b
  | PInt n => negb (n =? 0)%Z
  | PFloat z _ => negb z
  | PStr s => negb (s =? "")
  | PList l => match l with [] => false | _ :: _ => true end
  | PDict d => match d with [] => false | _ :: _ => true end
  end.

(** ** Exceptions *)

Inductive exn : Type :=
| JSONDecodeError (msg : string)
| KeyError (key : string)
| TypeError (msg : string)
| AttributeError (msg : string)
| IndexError (msg : string)
| LibraryError (cls msg : string).
    (* raised inside dateutil or the Google client: ParserError, HttpError, ... *)

(** [str(e)]; a [KeyError] prints the repr of its key *)
Definition exn_str (e : exn) : string :=
  match e with
  | KeyError k => "'" ++ k ++ "'"
  | JSONDecodeError m | TypeError m | AttributeError m | IndexError m => m
  | LibraryError _ m => m
  end.

Inductive result (A : Type) : Type :=
| Ok (a : A)
| Raise (e : exn).
Arguments Ok {A} a.
Arguments Raise {A} e.

(** ** Dictionary and iteration primitives *)

Fixpoint assoc_lookup (k : string) (d : list (string * pyval)) : option pyval :=
  match d with
  | [] => None
  | (k', v) :: rest => if k' =? k then Some v else assoc_lookup k rest
  end.

(** [v[k]] for a string key [k] *)
Definition getitem (v : pyval) (k : string) : result pyval :=
  match v with
  | PDict d =>
      match assoc_lookup k d with
      | Some x => Ok x
      | None => Raise (KeyError k)
      end
  | PList _ => Raise (TypeError "list indices must be integers or slices, not str")
  | PStr _ => Raise (TypeError "string indices must be integers, not 'str'")
  | _ => Raise (TypeError ("'" ++ type_name v ++ "' object is not subscriptable"))
  end.

(** [v.get(k)] *)
Definition dict_get (v : pyval) (k : string) : result pyval :=
  match v with
  | PDict d =>
      match assoc_lookup k d with
      | Some x => Ok x
      | None => Ok PNone
      end
  | _ => Raise (AttributeError
                  ("'" ++ type_name v ++ "' object has no attribute 'get'"))
  end.

Fixpoint chars (s : string) : list pyval :=
  match s with
  | EmptyString => []
  | String c rest => PStr (String c EmptyString) :: chars rest
  end.

(** the items a [for] comprehension draws from [v] *)
Definition py_iter (v : pyval) : result (list pyval) :=
  match v with
  | PList l => Ok l
  | PStr s => Ok (chars s)
  | PDict d => Ok (map (fun kv => PStr (fst kv)) d)
  | _ => Raise (TypeError ("'" ++ type_name v ++ "' object is not iterable"))
  end.

(** ** Records exchanged with the two providers *)

Definition TIMEZONE : string := "UTC".

Record time_spec : Type := { dateTime : string; timeZone : string }.

Record attendee : Type := { email : pyval }.

Record event_body : Type := {
  summary : pyval;
  description : pyval;
  start : time_spec;
  end_ : time_spec;
  attendees : list attendee
}.

Record insert_request : Type := {
  calendarId : string;
  body : event_body;
  sendUpdates : string
}.

Record function_call : Type := { name : string; arguments : string }.

Record tool_call : Type := { id : string; function : function_call }.

Record tool_output : Type := { tool_call_id : string; output : string }.

(** the object returned by [runs.retrieve]; [required_action] stands for
    [required_action.submit_tool_outputs.tool_calls] *)
Record run : Type := { status : string; required_action : list tool_call }.

Inductive content_block : Type :=
| TextContentBlock (value : string)
| ImageFileContentBlock (file_id : string).

Record message : Type := { role : string; content : list content_block }.

(** every request that leaves the process *)
Inductive call : Type :=
| MessagesCreate (msg_role msg_content : string)
| RunsCreate
| RunsRetrieve
| SubmitToolOutputs (tool_outputs : list tool_output)
| MessagesList
| EventsInsert (req : insert_request).

Record world : Type := {
  polls_done : nat;
  inserts_done : nat;
  trace : list call
}.

Definition log (c : call) (w : world) : world :=
  {| polls_done := polls_done w;
     inserts_done := inserts_done w;
     trace := trace w ++ [c] |}.

(** the world once the calendar provider has received [req] *)
Definition after_insert (req : insert_request) (w : world) : world :=
  {| polls_done := polls_done w;
     inserts_done := S (inserts_done w);
     trace := trace w ++ [EventsInsert req] |}.

(** the world once the assistant provider has answered a status poll *)
Definition after_retrieve (w : world) : world :=
  {| polls_done := S (polls_done w);
     inserts_done := inserts_done w;
     trace := trace w ++ [RunsRetrieve] |}.

(** ** The host of the calendar client: cached session and consent *)

(** a [google.oauth2.credentials.Credentials] object, by the attributes
    [authenticate] reads *)
Record credentials : Type := {
  token : option string;
  refresh_token : option string;
  valid : bool;
  expired : bool
}.

(** what [authenticate] asks of the file system and of the auth library *)
Inductive host_call : Type :=
| TokenLoad (content : string)
| TokenRefresh
| ConsentFlow
| TokenWrite (content : string)
| ServiceBuild.

(** [token_json] is the content of [token.json], [None] when the file does
    not exist *)
Record host : Type := {
  token_json : option string;
  host_trace : list host_call
}.

Definition host_log (c : host_call) (h : host) : host :=
  {| token_json := token_json h; host_trace := host_trace h ++ [c] |}.

(** [with open('token.json', 'w') as token: token.write(content)] *)
Definition write_token (content : string) (h : host) : host :=
  {| token_json := Some content;
     host_trace := host_trace h ++ [TokenWrite content] |}.

(** truth value of an optional string attribute: [None] and [''] are false *)
Definition str_truthy (o : option string) : bool :=
  match o with
  | Some s => negb (s =? "")
  | None => false
  end.

(** ** The monad of the program: state passing with exceptions *)

Definition M (A : Type) : Type := world -> result A * world.

Definition ret {A} (a : A) : M A := fun w => (Ok a, w).

Definition bind {A B} (m : M A) (k : A -> M B) : M B :=
  fun w =>
    match m w with
    | (Ok a, w') => k a w'
    | (Raise e, w') => (Raise e, w')
    end.

Definition lift {A} (r : result A) : M A := fun w => (r, w).

(** [try: m  except Exception as e: h e] *)
Definition try_except {A} (m : M A) (h : exn -> M A) : M A :=
  fun w =>
    match m w with
    | (Ok a, w') => (Ok a, w')
    | (Raise e, w') => h e w'
    end.

Declare Scope py_scope.
Delimit Scope py_scope with py.
Notation "x <- m ;; k" := (bind m (fun x => k))
  (at level 61, m at next level, right associativity) : py_scope.
Notation "m ;;; k" := (bind m (fun _ => k))
  (at level 61, right associativity) : py_scope.
Local Open Scope py_scope.

(** ** A scripted pair of providers

    Concrete libraries and provider answers on which the statements below
    are exercised: a decoder that knows one well-formed payload, a parser
    that knows three spellings of two instants, a calendar that accepts
    every event, and four poll scripts. *)

Module Sample.

Definition dq : string := String (ascii_of_nat 34) EmptyString.

Definition quoted (s : string) : string := dq ++ s ++ dq.

Definition meeting_payload : string :=
  "{" ++ quoted "summary" ++ ": " ++ quoted "Team meeting" ++ ", "
      ++ quoted "start_time" ++ ": " ++ quoted "May 6 2024 2pm" ++ ", "
      ++ quoted "end_time" ++ ": " ++ quoted "2024-05-06T15:00:00" ++ ", "
      ++ quoted "attendees" ++ ": [" ++ quoted "alice@example.com" ++ ", "
      ++ quoted "bob@example.com" ++ "]}".

Definition meeting_arguments : pyval :=
  PDict [("summary", PStr "Team meeting");
         ("start_time", PStr "May 6 2024 2pm");
         ("end_time", PStr "2024-05-06T15:00:00");
         ("attendees", PList [PStr "alice@example.com"; PStr "bob@example.com"])].

Definition json_loads (s : string) : result pyval :=
  if s =? meeting_payload then Ok meeting_arguments
  else if s =? "{" then
    Raise (JSONDecodeError
             "Expecting property name enclosed in double quotes: line 1 column 2 (char 1)")
  else Raise (JSONDecodeError "Expecting value: line 1 column 1 (char 0)").

(** a datetime is kept as its canonical text *)
Definition datetime : Type := string.

Definition dateutil_parse (s : string) : result datetime :=
  if (s =? "May 6 2024 2pm") || (s =? "2024-05-06T14:00:00")
  then Ok "2024-05-06T14:00:00"
  else if s =? "2024-05-06T15:00:00" then Ok "2024-05-06T15:00:00"
  else Raise (LibraryError "ParserError" ("Unknown string format: " ++ s)).

Definition isoformat (d : datetime) : string := d.

Definition container_repr (v : pyval) : string := "<" ++ type_name v ++ ">".

Definition event_link : string :=
  "https://www.google.com/calendar/event?eid=abc123".

Definition created_event : pyval :=
  PDict [("kind", PStr "calendar#event"); ("htmlLink", PStr event_link)].

Definition insert_answer (n : nat) (req : insert_request) : result pyval :=
  Ok created_event.

Definition meeting_call : tool_call :=
  {| id := "call_1";
     function := {| name := "create_google_calendar_event";
                    arguments := meeting_payload |} |}.

Definition truncated_call : tool_call :=
  {| id := "call_2";
     function := {| name := "create_google_calendar_event";
                    arguments := "{" |} |}.

Definition stray_call : tool_call :=
  {| id := "call_3";
     function := {| name := "delete_google_calendar_event";
                    arguments := "{" |} |}.

Definition answer (s : string) (tcs : list tool_call) : run :=
  {| status := s; required_action := tcs |}.

(** in progress, then failed *)
Definition polls_failing (k : nat) : run :=
  match k with
  | 0 => answer "in_progress" []
  | _ => answer "failed" []
  end.

(** queued, one tool call to answer, in progress, then completed *)
Definition polls_meeting (k : nat) : run :=
  match k with
  | 0 => answer "queued" []
  | 1 => answer "requires_action" [meeting_call]
  | 2 => answer "in_progress" []
  | _ => answer "completed" []
  end.

(** an action with nothing to do, then completed *)
Definition polls_idle (k : nat) : run :=
  match k with
  | 0 => answer "requires_action" []
  | _ => answer "completed" []
  end.

(** the same undecodable tool call at every poll *)
Definition polls_truncated (k : nat) : run :=
  answer "requires_action" [truncated_call].

Definition thread_messages : list message :=
  [ {| role := "assistant";
       content := [TextContentBlock ("Your meeting is booked: " ++ event_link)] |};
    {| role := "user";
       content := [TextContentBlock "Schedule a team meeting"] |} ].

Definition w0 : world := {| polls_done := 0; inserts_done := 0; trace := [] |}.

End Sample.

(** A scripted auth library: two sessions, their serializations, and a
    loader that reads back exactly what [to_json] writes. *)

Module SampleAuth.

Definition fresh : credentials :=
  {| token := Some "ya29.fresh"; refresh_token := Some "1//refresh";
     valid := true; expired := false |}.

Definition stale : credentials :=
  {| token := Some "ya29.stale"; refresh_token := Some "1//refresh";
     valid := false; expired := true |}.

Definition to_json (c : credentials) : string :=
  match token c with
  | Some t => "token=" ++ t
  | None => "token="
  end.

Definition from_authorized_user_file (content : string) : result credentials :=
  if content =? to_json fresh then Ok fresh
  else if content =? to_json stale then Ok stale
  else Raise (LibraryError "ValueError"
                "Authorized user info was not in the expected format").

Definition refresh (c : credentials) : result credentials := Ok fresh.

Definition refresh_revoked (c : credentials) : result credentials :=
  Raise (LibraryError "RefreshError" "invalid_grant: Token has been revoked").

Definition consent_flow : result credentials := Ok fresh.

Definition no_token : host := {| token_json := None; host_trace := [] |}.

Definition stale_token : host :=
  {| token_json := Some (to_json stale); host_trace := [] |}.

End SampleAuth.

Section Program.

(** The libraries the program calls and the answers of the providers. *)
Variable json_loads : string -> result pyval.
Variable datetime : Type.
Variable dateutil_parse : string -> result datetime.
Variable isoformat : datetime -> string.
Variable container_repr : pyval -> string.
(** answer of the calendar provider to its [n]-th insert request *)
Variable insert_answer : nat -> insert_request -> result pyval.
(** answer of the assistant provider to the [n]-th status poll *)
Variable poll_answer : nat -> run.
(** answer of the assistant provider to [messages.list], newest first *)
Variable thread_messages : list message.

(** [str(v)] as an f-string applies it *)
Definition py_str (v : pyval) : string :=
  match v with
  | PStr s => s
  | PNone => "None"
  | PBool true => "True"
  | PBool false => "False"
  | PInt n => NilZero.string_of_int (Z.to_int n)
  | PFloat _ r => r
  | PList _ | PDict _ => container_repr v
  end.

(** [dateutil.parser.parse(v)] *)
Definition parse (v : pyval) : result datetime :=
  match v with
  | PStr s => dateutil_parse s
  | _ => Raise (TypeError ("Parser must be a string or character stream, not "
                           ++ type_name v))
  end.

(** ** GoogleCalendarClient *)

(** [service.events().insert(...).execute()] *)
Definition events_insert (req : insert_request) : M pyval :=
  fun w =>
    (insert_answer (inserts_done w) req, after_insert req w).

Definition create_event (summary_ : pyval) (start_time end_time : string)
    (attendees_ description_ : pyval) : M pyval :=
  attendee_list <-
    (if truthy attendees_
     then (emails <- lift (py_iter attendees_) ;;
           ret (map (fun e => {| email := e |}) emails))
     else ret []) ;;
  let event :=
    {| summary := summary_;
       description := description_;
       start := {| dateTime := start_time; timeZone := TIMEZONE |};
       end_ := {| dateTime := end_time; timeZone := TIMEZONE |};
       attendees := attendee_list |} in
  events_insert
    {| calendarId := "primary";
       body := event;
       sendUpdates := if truthy attendees_ then "all" else "none" |}.

(** ** OpenAIAssistant.process_function_call *)

Definition process_function_call (tc : tool_call) : M string :=
  let function_name := name (function tc) in
  arguments_ <- lift (json_loads (arguments (function tc))) ;;
  if function_name =? "create_google_calendar_event" then
    try_except
      (t1 <- lift (getitem arguments_ "start_time") ;;
       d1 <- lift (parse t1) ;;
       let start_time := isoformat d1 in
       t2 <- lift (getitem arguments_ "end_time") ;;
       d2 <- lift (parse t2) ;;
       let end_time := isoformat d2 in
       summary_ <- lift (getitem arguments_ "summary") ;;
       attendees_ <- lift (dict_get arguments_ "attendees") ;;
       description_ <- lift (dict_get arguments_ "description") ;;
       event <- create_event summary_ start_time end_time
                             attendees_ description_ ;;
       link <- lift (dict_get event "htmlLink") ;;
       ret ("Event created: " ++ py_str link))
      (fun e => ret ("Error creating event: " ++ exn_str e))
  else ret "Unknown function called".

(** ** The assistant provider *)

Definition messages_create (role_ content_ : string) : M unit :=
  fun w => (Ok tt, log (MessagesCreate role_ content_) w).

Definition runs_create : M unit :=
  fun w => (Ok tt, log RunsCreate w).

Definition runs_retrieve : M run :=
  fun w =>
    (Ok (poll_answer (polls_done w)), after_retrieve w).

Definition submit_tool_outputs (outs : list tool_output) : M unit :=
  fun w => (Ok tt, log (SubmitToolOutputs outs) w).

Definition messages_list : M (list message) :=
  fun w => (Ok thread_messages, log MessagesList w).

(** ** OpenAIAssistant.run_assistant *)

(** the [for tool_call in ...] loop; [tool_outputs] is the list built so far *)
Fixpoint for_tool_calls (tcs : list tool_call) (tool_outputs : list tool_output)
    : M (list tool_output) :=
  match tcs with
  | [] => ret tool_outputs
  | tc :: rest =>
      output_ <- process_function_call tc ;;
      for_tool_calls rest
        (tool_outputs ++ [{| tool_call_id := id tc; output := output_ |}])
  end.

(** how one iteration of [while True] ends *)
Inductive control : Type :=
| Continue
| Break
| Return (s : string).

Definition loop_body : M control :=
  run_status <- runs_retrieve ;;
  if status run_status =? "completed" then ret Break
  else if status run_status =? "requires_action" then
    tool_outputs <- for_tool_calls (required_action run_status) [] ;;
    submit_tool_outputs tool_outputs ;;;
    ret Continue
  else if existsb (String.eqb (status run_status))
                  ["failed"; "cancelled"; "expired"] then
    ret (Return "Run failed")
  else ret Continue.

(** [messages.data[0].content[0].text.value] *)
Definition first_text (data : list message) : result string :=
  match data with
  | [] => Raise (IndexError "list index out of range")
  | m :: _ =>
      match content m with
      | [] => Raise (IndexError "list index out of range")
      | TextContentBlock v :: _ => Ok v
      | ImageFileContentBlock _ :: _ =>
          Raise (AttributeError
                   "'ImageFileContentBlock' object has no attribute 'text'")
      end
  end.

(** the code after the loop *)
Definition read_reply : M string :=
  messages <- messages_list ;;
  lift (first_text messages).

(** what a caller of [run_assistant] observes; [Polling] is the loop still
    running when the fuel is spent *)
Inductive outcome : Type :=
| Returned (s : string)
| Raised (e : exn)
| Polling.

Definition finish (r : result string * world) : outcome * world :=
  match r with
  | (Ok s, w) => (Returned s, w)
  | (Raise e, w) => (Raised e, w)
  end.

Fixpoint poll_loop (fuel : nat) (w : world) : outcome * world :=
  match fuel with
  | O => (Polling, w)
  | S fuel' =>
      match loop_body w with
      | (Ok Continue, w') => poll_loop fuel' w'
      | (Ok Break, w') => finish (read_reply w')
      | (Ok (Return s), w') => (Returned s, w')
      | (Raise e, w') => (Raised e, w')
      end
  end.

Definition run_assistant (fuel : nat) (user_input : string) (w : world)
    : outcome * world :=
  let w1 := snd (messages_create "user" user_input w) in
  let w2 := snd (runs_create w1) in
  poll_loop fuel w2.

(** the world at the head of the loop after [n] iterations that all went
    round again; [None] when one of them left the loop *)
Fixpoint iterate (n : nat) (w : world) : option world :=
  match n with
  | O => Some w
  | S k =>
      match loop_body w with
      | (Ok Continue, w') => iterate k w'
      | _ => None
      end
  end.

(** the world in which the loop is entered: the user message is posted and
    the run is created *)
Definition started (user_input : string) (w : world) : world :=
  snd (runs_create (snd (messages_create "user" user_input w))).

(** the statuses on which the loop stops *)
Definition terminal (s : string) : bool :=
  (s =? "completed") || existsb (String.eqb s) ["failed"; "cancelled"; "expired"].

(** the call ends, by a return or by an exception, within some number of
    iterations *)
Definition halts (user_input : string) (w : world) : Prop :=
  exists fuel, fst (run_assistant fuel user_input w) <> Polling.

(** some poll from the one the call starts with onwards answers a terminal
    status *)
Definition eventually_terminal (w : world) : Prop :=
  exists n, terminal (status (poll_answer (polls_done w + n))) = true.

(** the payload of the tool call is one that [json.loads] accepts *)
Definition decodable (tc : tool_call) : bool :=
  match json_loads (arguments (function tc)) with
  | Ok _ => true
  | Raise _ => false
  end.

(** [attendees] as the declared schema types it: omitted, or a list of
    e-mail strings *)
Definition attendees_arg (a : option (list string)) : pyval :=
  match a with
  | None => PNone
  | Some emails => PList (map PStr emails)
  end.

Definition is_insert (c : call) : bool :=
  match c with
  | EventsInsert _ => true
  | _ => false
  end.

(** [w'] differs from [w] by requests to the calendar provider only *)
Definition calendar_steps (w w' : world) : Prop :=
  polls_done w' = polls_done w /\
  exists l, trace w' = (trace w ++ l)%list /\
            forallb is_insert l = true /\
            inserts_done w' = inserts_done w + length l.

(** [answered tcs w outs w']: starting in [w], each tool call of [tcs] in
    turn is handed to [process_function_call], which returns; [outs] pairs
    every identifier with the string returned for it, and [w'] is the world
    left by the last call *)
Inductive answered : list tool_call -> world -> list tool_output -> world -> Prop :=
| answered_nil : forall w, answered [] w [] w
| answered_cons : forall tc tcs w s w1 outs w2,
    process_function_call tc w = (Ok s, w1) ->
    answered tcs w1 outs w2 ->
    answered (tc :: tcs) w
             ({| tool_call_id := id tc; output := s |} :: outs) w2.

(** ** GoogleCalendarClient.authenticate *)

(** The auth library: [Credentials.from_authorized_user_file] on the content
    of [token.json], [creds.refresh(Request())] as the credentials it leaves,
    [InstalledAppFlow.from_client_secrets_file(...).run_local_server(port=0)]
    and [creds.to_json()]. *)
Variable from_authorized_user_file : string -> result credentials.
Variable refresh : credentials -> result credentials.
Variable consent_flow : result credentials.
Variable to_json : credentials -> string.

(** the tail shared by the two branches that obtain a session: persist it,
    then build the service on it *)
Definition persist_and_build (obtained : result credentials) (h : host)
    : result credentials * host :=
  match obtained with
  | Ok c => (Ok c, host_log ServiceBuild (write_token (to_json c) h))
  | Raise e => (Raise e, h)
  end.

(** the service is represented by the credentials it is built on *)
Definition authenticate (h : host) : result credentials * host :=
  match token_json h with
  | Some content =>
      let h1 := host_log (TokenLoad content) h in
      match from_authorized_user_file content with
      | Raise e => (Raise e, h1)
      | Ok c =>
          if valid c then (Ok c, host_log ServiceBuild h1)
          else if expired c && str_truthy (refresh_token c)
               then persist_and_build (refresh c) (host_log TokenRefresh h1)
               else persist_and_build consent_flow (host_log ConsentFlow h1)
      end
  | None => persist_and_build consent_flow (host_log ConsentFlow h)
  end.

(** ** OpenAIAssistant.create_assistant *)

Record assistant_request : Type := {
  assistant_name : string;
  instructions : string;
  model : string;
  tools : pyval
}.

(** the arguments of [client.beta.assistants.create] *)
Definition create_assistant : assistant_request :=
  {| assistant_name := "Calendar Assistant";
     instructions :=
       "You are a calendar scheduling assistant. Use the provided functions to schedule meetings.";
     model := "gpt-4-turbo";
     tools :=
       PList [PDict [
         ("type", PStr "function");
         ("function", PDict [
            ("name", PStr "create_google_calendar_event");
            ("description", PStr "Create a new Google Calendar event");
            ("parameters", PDict [
               ("type", PStr "object");
               ("properties", PDict [
                  ("summary", PDict [
                     ("type", PStr "string");
                     ("description", PStr "Title of the event")]);
                  ("start_time", PDict [
                     ("type", PStr "string");
                     ("format", PStr "date-time");
                     ("description", PStr "Start time in ISO 8601 format")]);
                  ("end_time", PDict [
                     ("type", PStr "string");
                     ("format", PStr "date-time");
                     ("description", PStr "End time in ISO 8601 format")]);
                  ("attendees", PDict [
                     ("type", PStr "array");
                     ("items", PDict [
                        ("type", PStr "string");
                        ("format", PStr "email")]);
                     ("description", PStr "List of attendee email addresses")]);
                  ("description", PDict [
                     ("type", PStr "string");
                     ("description", PStr "Detailed description of the event")])]);
               ("required", PList [PStr "summary"; PStr "start_time";
                                   PStr "end_time"])])])]] |}.

(** reading the registered tools back *)
Definition field (k : string) (v : pyval) : option pyval :=
  match v with
  | PDict d => assoc_lookup k d
  | _ => None
  end.

Definition strings_of (v : option pyval) : list string :=
  match v with
  | Some (PList l) =>
      flat_map (fun x => match x with PStr s => [s] | _ => [] end) l
  | _ => []
  end.

Definition registered_functions : list pyval :=
  match tools create_assistant with
  | PList l =>
      flat_map (fun t => match field "function" t with
                         | Some f => [f]
                         | None => []
                         end) l
  | _ => []
  end.

Definition registered_names : list string :=
  flat_map (fun f => match field "name" f with
                     | Some (PStr n) => [n]
                     | _ => []
                     end) registered_functions.

(** the keys the schema of the function named [n] marks as required *)
Definition required_keys (n : string) : list string :=
  flat_map (fun f =>
              match field "name" f, field "parameters" f with
              | Some (PStr m), Some ps =>
                  if m =? n then strings_of (field "required" ps) else []
              | _, _ => []
              end) registered_functions.

(** the keys the schema of the function named [n] declares *)
Definition declared_keys (n : string) : list string :=
  flat_map (fun f =>
              match field "name" f, field "parameters" f with
              | Some (PStr m), Some ps =>
                  if m =? n then
                    match field "properties" ps with
                    | Some (PDict d) => map fst d
                    | _ => []
                    end
                  else []
              | _, _ => []
              end) registered_functions.

(** what the dispatcher answers when the calendar provider has answered
    [r] to the insert request *)
Definition report (r : result pyval) : string :=
  match r with
  | Ok event =>
      match dict_get event "htmlLink" with
      | Ok link => "Event created: " ++ py_str link
      | Raise e => "Error creating event: " ++ exn_str e
      end
  | Raise e => "Error creating event: " ++ exn_str e
  end.

(** the requests an iteration of the loop may make *)
Definition is_loop_call (c : call) : bool :=
  match c with
  | RunsRetrieve | SubmitToolOutputs _ | EventsInsert _ => true
  | _ => false
  end.

(** * Properties *)

(** ** Tool dispatch *)

Ltac run_m :=
  unfold bind, lift, ret, try_except, events_insert in *; cbn [fst snd] in *.

Lemma process_function_call_undecodable :
  forall tc e w,
    json_loads (arguments (function tc)) = Raise e ->
    process_function_call tc w = (Raise e, w).
Proof.
  intros tc e w H. unfold process_function_call. run_m. now rewrite H.
Qed.

Lemma process_function_call_unknown :
  forall tc a w,
    json_loads (arguments (function tc)) = Ok a ->
    (name (function tc) =? "create_google_calendar_event") = false ->
    process_function_call tc w = (Ok "Unknown function called", w).
Proof.
  intros tc a w H Hn. unfold process_function_call. run_m.
  now rewrite H, Hn.
Qed.

(** Once the payload is decoded nothing escapes: the call returns a string. *)
Lemma process_function_call_decoded :
  forall tc a w,
    json_loads (arguments (function tc)) = Ok a ->
    exists s w', process_function_call tc w = (Ok s, w').
Proof.
  intros tc a w H. unfold process_function_call. run_m. rewrite H.
  destruct (name (function tc) =? "create_google_calendar_event");
    [ | eauto ].
  match goal with
  | |- exists s w', match ?m with _ => _ end = _ => destruct m as [[s|e] w1]
  end; eauto.
Qed.

Lemma process_function_call_raise_inv :
  forall tc e w w',
    process_function_call tc w = (Raise e, w') ->
    json_loads (arguments (function tc)) = Raise e /\ w' = w.
Proof.
  intros tc e w w' H.
  destruct (json_loads (arguments (function tc))) as [a|e0] eqn:Hj.
  - destruct (process_function_call_decoded tc a w Hj) as (s & w1 & Hs).
    congruence.
  - rewrite (process_function_call_undecodable tc e0 w Hj) in H.
    now inversion H.
Qed.

Lemma calendar_steps_refl : forall w, calendar_steps w w.
Proof.
  intro w. split; [reflexivity|]. exists []. rewrite app_nil_r. cbn. auto.
Qed.

Lemma calendar_steps_trans :
  forall w1 w2 w3,
    calendar_steps w1 w2 -> calendar_steps w2 w3 -> calendar_steps w1 w3.
Proof.
  intros w1 w2 w3 [Hp (l & Ht & Hl & Hi)] [Hp' (l' & Ht' & Hl' & Hi')].
  split; [congruence|]. exists (l ++ l')%list. repeat split.
  - now rewrite Ht', Ht, app_assoc.
  - rewrite forallb_app, Hl, Hl'. reflexivity.
  - rewrite length_app. lia.
Qed.

Lemma calendar_steps_insert : forall req w, calendar_steps w (after_insert req w).
Proof.
  intros req w. split; [reflexivity|]. exists [EventsInsert req]. cbn.
  repeat split. lia.
Qed.

Lemma create_event_effect :
  forall su st en at_ de w r w',
    create_event su st en at_ de w = (r, w') ->
    w' = w \/ exists req, w' = after_insert req w.
Proof.
  intros su st en at_ de w r w' H. unfold create_event in H. run_m.
  destruct (truthy at_).
  - destruct (py_iter at_); inversion H; eauto.
  - inversion H; eauto.
Qed.

Lemma process_function_call_effect :
  forall tc w r w',
    process_function_call tc w = (r, w') ->
    w' = w \/ exists req, w' = after_insert req w.
Proof.
  intros tc w r w' H. unfold process_function_call in H. run_m.
  destruct (json_loads (arguments (function tc))) as [a|e];
    [ | inversion H; auto ].
  destruct (name (function tc) =? "create_google_calendar_event");
    [ | inversion H; auto ].
  destruct (getitem a "start_time") as [t1|]; [ | inversion H; auto ].
  destruct (parse t1) as [d1|]; [ | inversion H; auto ].
  destruct (getitem a "end_time") as [t2|]; [ | inversion H; auto ].
  destruct (parse t2) as [d2|]; [ | inversion H; auto ].
  destruct (getitem a "summary") as [su|]; [ | inversion H; auto ].
  destruct (dict_get a "attendees") as [at_|]; [ | inversion H; auto ].
  destruct (dict_get a "description") as [de|]; [ | inversion H; auto ].
  destruct (create_event su (isoformat d1) (isoformat d2) at_ de w)
    as [[ev|e] w1] eqn:Hc;
    apply create_event_effect in Hc.
  - destruct (dict_get ev "htmlLink"); inversion H; subst; exact Hc.
  - inversion H; subst; exact Hc.
Qed.

Lemma process_function_call_steps :
  forall tc w r w',
    process_function_call tc w = (r, w') -> calendar_steps w w'.
Proof.
  intros tc w r w' H.
  destruct (process_function_call_effect _ _ _ _ H) as [-> | [req ->]].
  - apply calendar_steps_refl.
  - apply calendar_steps_insert.
Qed.

Lemma for_tool_calls_steps :
  forall tcs acc w r w',
    for_tool_calls tcs acc w = (r, w') -> calendar_steps w w'.
Proof.
  induction tcs as [|tc tcs IH]; intros acc w r w' H; cbn in H.
  - inversion H. apply calendar_steps_refl.
  - unfold bind in H.
    destruct (process_function_call tc w) as [[s|e] w1] eqn:Hp;
      apply process_function_call_steps in Hp.
    + eapply calendar_steps_trans; [exact Hp|]. eapply IH; exact H.
    + inversion H; subst. exact Hp.
Qed.

Lemma for_tool_calls_answered :
  forall tcs acc w,
    forallb decodable tcs = true ->
    exists outs w',
      answered tcs w outs w' /\
      for_tool_calls tcs acc w = (Ok (acc ++ outs)%list, w').
Proof.
  induction tcs as [|tc tcs IH]; intros acc w Hd; cbn in *.
  - exists [], w. rewrite app_nil_r. split; [constructor | reflexivity].
  - apply andb_true_iff in Hd as [Hd1 Hd2]. unfold decodable in Hd1.
    destruct (json_loads (arguments (function tc))) as [a|] eqn:Hj;
      [ | discriminate ].
    destruct (process_function_call_decoded tc a w Hj) as (s & w1 & Hs).
    destruct (IH (acc ++ [{| tool_call_id := id tc; output := s |}])%list w1 Hd2)
      as (outs & w2 & Ha & Hf).
    exists ({| tool_call_id := id tc; output := s |} :: outs), w2. split.
    + econstructor; eassumption.
    + unfold bind. rewrite Hs, Hf. now rewrite <- app_assoc.
Qed.

Lemma for_tool_calls_raise_inv :
  forall tcs acc w e w',
    for_tool_calls tcs acc w = (Raise e, w') ->
    forallb decodable tcs = false.
Proof.
  intros tcs acc w e w' H.
  destruct (forallb decodable tcs) eqn:Hd; [ | reflexivity ].
  destruct (for_tool_calls_answered tcs acc w Hd) as (outs & w2 & _ & Hf).
  congruence.
Qed.

Lemma answered_ids :
  forall tcs w outs w',
    answered tcs w outs w' -> map tool_call_id outs = map id tcs.
Proof.
  induction 1; cbn; congruence.
Qed.

(** ** One iteration of the polling loop *)

Lemma failure_status_not_other :
  forall s,
    In s ["failed"; "cancelled"; "expired"] ->
    (s =? "completed") = false /\ (s =? "requires_action") = false /\
    existsb (String.eqb s) ["failed"; "cancelled"; "expired"] = true.
Proof.
  intros s [<- | [<- | [<- | []]]]; repeat split.
Qed.

Lemma loop_body_completed :
  forall w,
    status (poll_answer (polls_done w)) = "completed" ->
    loop_body w = (Ok Break, after_retrieve w).
Proof.
  intros w H. unfold loop_body, runs_retrieve. run_m. now rewrite H.
Qed.

Lemma loop_body_failed :
  forall w,
    In (status (poll_answer (polls_done w))) ["failed"; "cancelled"; "expired"] ->
    loop_body w = (Ok (Return "Run failed"), after_retrieve w).
Proof.
  intros w H. apply failure_status_not_other in H as (H1 & H2 & H3).
  unfold loop_body, runs_retrieve. run_m. now rewrite H1, H2, H3.
Qed.

Lemma loop_body_other :
  forall w,
    terminal (status (poll_answer (polls_done w))) = false ->
    status (poll_answer (polls_done w)) <> "requires_action" ->
    loop_body w = (Ok Continue, after_retrieve w).
Proof.
  intros w Ht Hr. unfold terminal in Ht. apply orb_false_iff in Ht as [H1 H3].
  apply String.eqb_neq in Hr.
  unfold loop_body, runs_retrieve. run_m. now rewrite H1, Hr, H3.
Qed.

Lemma loop_body_requires_action :
  forall w,
    status (poll_answer (polls_done w)) = "requires_action" ->
    loop_body w =
      match for_tool_calls (required_action (poll_answer (polls_done w))) []
                           (after_retrieve w) with
      | (Ok outs, w1) => (Ok Continue, log (SubmitToolOutputs outs) w1)
      | (Raise e, w1) => (Raise e, w1)
      end.
Proof.
  intros w H. unfold loop_body, runs_retrieve, submit_tool_outputs. run_m.
  rewrite H. cbn.
  destruct (for_tool_calls _ _ _) as [[outs|e] w1]; reflexivity.
Qed.

Lemma loop_body_answers :
  forall w,
    status (poll_answer (polls_done w)) = "requires_action" ->
    forallb decodable (required_action (poll_answer (polls_done w))) = true ->
    exists outs w1,
      answered (required_action (poll_answer (polls_done w)))
               (after_retrieve w) outs w1 /\
      loop_body w = (Ok Continue, log (SubmitToolOutputs outs) w1).
Proof.
  intros w Hs Hd. rewrite (loop_body_requires_action w Hs).
  destruct (for_tool_calls_answered _ [] (after_retrieve w) Hd)
    as (outs & w1 & Ha & Hf).
  exists outs, w1. rewrite Hf. auto.
Qed.

Lemma loop_body_raise_inv :
  forall w e w',
    loop_body w = (Raise e, w') ->
    status (poll_answer (polls_done w)) = "requires_action" /\
    forallb decodable (required_action (poll_answer (polls_done w))) = false.
Proof.
  intros w e w' H.
  destruct (status (poll_answer (polls_done w)) =? "requires_action") eqn:Hr.
  - apply String.eqb_eq in Hr. split; [exact Hr|].
    rewrite (loop_body_requires_action w Hr) in H.
    destruct (for_tool_calls _ _ _) as [[outs|e1] w1] eqn:Hf;
      [ discriminate | ].
    eapply for_tool_calls_raise_inv; exact Hf.
  - exfalso. unfold loop_body, runs_retrieve in H. run_m. rewrite Hr in H.
    destruct (_ =? "completed"); [discriminate|].
    destruct (existsb _ _); discriminate.
Qed.

(** An iteration that goes round again has polled once and has not read
    the message list. *)
Lemma loop_body_continue_effect :
  forall w w',
    loop_body w = (Ok Continue, w') ->
    polls_done w' = S (polls_done w) /\
    exists added, trace w' = (trace w ++ added)%list /\ ~ In MessagesList added.
Proof.
  intros w w' H.
  destruct (status (poll_answer (polls_done w)) =? "requires_action") eqn:Hr.
  - apply String.eqb_eq in Hr. rewrite (loop_body_requires_action w Hr) in H.
    destruct (for_tool_calls _ _ _) as [[outs|e1] w1] eqn:Hf;
      [ | discriminate ].
    apply for_tool_calls_steps in Hf as [Hp (l & Ht & Hl & _)].
    inversion H; subst w'; clear H. cbn. split; [exact Hp|].
    exists (RunsRetrieve :: l ++ [SubmitToolOutputs outs])%list. split.
    + rewrite Ht. cbn. now rewrite <- !app_assoc.
    + intros [Hin | Hin]; [discriminate|].
      apply in_app_or in Hin as [Hin | [Hin | []]]; [ | discriminate ].
      rewrite forallb_forall in Hl. now apply Hl in Hin.
  - unfold loop_body, runs_retrieve in H. run_m. rewrite Hr in H.
    destruct (_ =? "completed"); [discriminate|].
    destruct (existsb _ _); [discriminate|].
    inversion H; subst w'. cbn. split; [reflexivity|].
    exists [RunsRetrieve]. split; [reflexivity|].
    intros [Hin | []]. discriminate.
Qed.

(** ** The loop as a whole *)

Lemma iterate_effect :
  forall n w wn,
    iterate n w = Some wn ->
    polls_done wn = polls_done w + n /\
    exists added, trace wn = (trace w ++ added)%list /\ ~ In MessagesList added.
Proof.
  induction n as [|n IH]; intros w wn H; cbn [iterate] in H.
  - inversion H; subst. split; [lia|]. exists []. rewrite app_nil_r. auto.
  - destruct (loop_body w) as [[[ | | s]|e] w1] eqn:Hb; try discriminate.
    apply loop_body_continue_effect in Hb as [Hp (a1 & Ht1 & Hn1)].
    apply IH in H as [Hp' (a2 & Ht2 & Hn2)]. split; [lia|].
    exists (a1 ++ a2)%list. split.
    + now rewrite Ht2, Ht1, app_assoc.
    + intro Hin. apply in_app_or in Hin. tauto.
Qed.

Lemma poll_loop_iterate :
  forall n fuel w wn,
    iterate n w = Some wn -> poll_loop (n + fuel) w = poll_loop fuel wn.
Proof.
  induction n as [|n IH]; intros fuel w wn H;
    cbn [iterate poll_loop Nat.add] in *.
  - now inversion H.
  - destruct (loop_body w) as [[[ | | s]|e] w1]; try discriminate.
    now apply IH.
Qed.

Lemma started_trace :
  forall user_input w,
    trace (started user_input w) =
      (trace w ++ [MessagesCreate "user" user_input; RunsCreate])%list /\
    polls_done (started user_input w) = polls_done w /\
    inserts_done (started user_input w) = inserts_done w.
Proof.
  intros. cbn. now rewrite <- app_assoc.
Qed.

(** ** Statements about [create_event] and [process_function_call] *)

(** What a tool call of the known function returns once its payload is
    decoded: the success string or the error string, never a raise. *)
Lemma process_function_call_known_shape :
  forall tc a w,
    name (function tc) = "create_google_calendar_event" ->
    json_loads (arguments (function tc)) = Ok a ->
    exists s w',
      process_function_call tc w = (Ok s, w') /\
      exists rest,
        s = "Event created: " ++ rest \/ s = "Error creating event: " ++ rest.
Proof.
  intros tc a w Hn Hj. unfold process_function_call. run_m.
  rewrite Hj, Hn. cbn [String.eqb Ascii.eqb Bool.eqb].
  match goal with
  | |- exists s w', match ?m with _ => _ end = _ /\ _ =>
      destruct m as [[s|e] w1] eqn:Hm
  end.
  - exists s, w1. split; [reflexivity|].
    repeat match type of Hm with
    | match ?x with _ => _ end = _ => destruct x; try discriminate
    | (let (_, _) := ?x in _) = _ => destruct x; try discriminate
    end.
    injection Hm as <- <-. eexists. left. reflexivity.
  - eexists _, w1. split; [reflexivity|]. eexists. right. reflexivity.
Qed.

(** A timestamp the permissive parser rejects is reported as text and
    nothing reaches the calendar. *)
Lemma unparseable_start_time_reported :
  forall tc a t1 e w,
    name (function tc) = "create_google_calendar_event" ->
    json_loads (arguments (function tc)) = Ok a ->
    getitem a "start_time" = Ok t1 ->
    parse t1 = Raise e ->
    process_function_call tc w = (Ok ("Error creating event: " ++ exn_str e), w).
Proof.
  intros tc a t1 e w Hn Hj Ht Hp. unfold process_function_call. run_m.
  rewrite Hj, Hn. cbn [String.eqb Ascii.eqb Bool.eqb].
  now rewrite Ht, Hp.
Qed.

(** A required key that is missing is reported as text and nothing reaches
    the calendar. *)
Lemma missing_start_time_reported :
  forall tc d w,
    name (function tc) = "create_google_calendar_event" ->
    json_loads (arguments (function tc)) = Ok (PDict d) ->
    assoc_lookup "start_time" d = None ->
    process_function_call tc w =
      (Ok "Error creating event: 'start_time'", w).
Proof.
  intros tc d w Hn Hj Hk. unfold process_function_call. run_m.
  rewrite Hj, Hn. cbn [String.eqb Ascii.eqb Bool.eqb getitem].
  now rewrite Hk.
Qed.

(** An event the provider refuses is reported as text. *)
Lemma failed_creation_reported :
  forall tc a t1 t2 d1 d2 su at_ de e w w',
    name (function tc) = "create_google_calendar_event" ->
    json_loads (arguments (function tc)) = Ok a ->
    getitem a "start_time" = Ok t1 -> parse t1 = Ok d1 ->
    getitem a "end_time" = Ok t2 -> parse t2 = Ok d2 ->
    getitem a "summary" = Ok su ->
    dict_get a "attendees" = Ok at_ ->
    dict_get a "description" = Ok de ->
    create_event su (isoformat d1) (isoformat d2) at_ de w = (Raise e, w') ->
    process_function_call tc w =
      (Ok ("Error creating event: " ++ exn_str e), w').
Proof.
  intros tc a t1 t2 d1 d2 su at_ de e w w'
         Hn Hj Ht1 Hd1 Ht2 Hd2 Hsu Hat Hde Hc.
  unfold process_function_call. run_m.
  rewrite Hj, Hn. cbn [String.eqb Ascii.eqb Bool.eqb].
  now rewrite Ht1, Hd1, Ht2, Hd2, Hsu, Hat, Hde, Hc.
Qed.

(** C1, at the input on which the code departs from it: a tool call naming
    [create_google_calendar_event] whose argument payload [json.loads]
    rejects does not yield a string; the decoder's exception leaves
    [process_function_call], because the payload is decoded before the
    [try] block is entered. *)
Theorem known_function_malformed_payload_raises :
  forall tc e w,
    name (function tc) = "create_google_calendar_event" ->
    json_loads (arguments (function tc)) = Raise e ->
    process_function_call tc w = (Raise e, w).
Proof.
  intros tc e w _ Hj. now apply process_function_call_undecodable.
Qed.

(** C7, at the input on which the code departs from it: a tool call naming
    any other function whose argument payload [json.loads] rejects does not
    get the fixed string; the decoder's exception leaves
    [process_function_call], because the payload is decoded before the name
    is compared. *)
Theorem unknown_function_malformed_payload_raises :
  forall tc e w,
    name (function tc) <> "create_google_calendar_event" ->
    json_loads (arguments (function tc)) = Raise e ->
    process_function_call tc w = (Raise e, w).
Proof.
  intros tc e w _ Hj. now apply process_function_call_undecodable.
Qed.

(** With a payload the decoder accepts, an unknown name gets the fixed
    string and the world is untouched: no request reaches the calendar. *)
Lemma unknown_function_decoded :
  forall tc a w,
    name (function tc) <> "create_google_calendar_event" ->
    json_loads (arguments (function tc)) = Ok a ->
    process_function_call tc w = (Ok "Unknown function called", w).
Proof.
  intros tc a w Hn Hj. apply String.eqb_neq in Hn.
  eapply process_function_call_unknown; eassumption.
Qed.

(** C5: [create_event] sends one insert request to the primary calendar;
    its body carries one attendee object [{'email': e}] per e-mail string,
    in order, and the request asks for [sendUpdates='all'] when there is at
    least one attendee and for [sendUpdates='none'] when [attendees] is
    omitted (or empty). *)
Theorem create_event_request :
  forall summary_ start_time end_time (attendees_ : option (list string))
         description_ w,
    let emails := match attendees_ with Some l => l | None => [] end in
    let req :=
      {| calendarId := "primary";
         body :=
           {| summary := summary_;
              description := description_;
              start := {| dateTime := start_time; timeZone := "UTC" |};
              end_ := {| dateTime := end_time; timeZone := "UTC" |};
              attendees := map (fun e => {| email := PStr e |}) emails |};
         sendUpdates := match emails with [] => "none" | _ :: _ => "all" end |} in
    create_event summary_ start_time end_time (attendees_arg attendees_)
                 description_ w
    = (insert_answer (inserts_done w) req, after_insert req w).
Proof.
  intros su st en [[|e l]|] de w; cbn; unfold create_event; run_m; cbn.
  - reflexivity.
  - now rewrite map_map.
  - reflexivity.
Qed.

Lemma create_event_success_inv :
  forall su st en at_ de w ev w',
    create_event su st en at_ de w = (Ok ev, w') ->
    exists req,
      insert_answer (inserts_done w) req = Ok ev /\
      w' = after_insert req w /\
      calendarId req = "primary" /\
      summary (body req) = su /\
      dateTime (start (body req)) = st /\
      dateTime (end_ (body req)) = en.
Proof.
  intros su st en at_ de w ev w' H. unfold create_event in H. run_m.
  destruct (truthy at_).
  - destruct (py_iter at_); [ | discriminate ].
    inversion H. eexists. repeat split; eauto.
  - inversion H. eexists. repeat split; eauto.
Qed.

(** C6: for a tool call naming [create_google_calendar_event] whose payload
    decodes, whose two timestamps the permissive parser accepts, whose
    summary is present and whose event creation succeeds with an event that
    carries a link, [process_function_call] has called
    [create_event] with the [isoformat] of the two parsed timestamps (one
    insert request, carrying them, has reached the calendar) and returns
    the success string that ends with the link. *)
Theorem process_function_call_success :
  forall tc a t1 t2 d1 d2 su at_ de ev link w w',
    name (function tc) = "create_google_calendar_event" ->
    json_loads (arguments (function tc)) = Ok a ->
    getitem a "start_time" = Ok t1 -> parse t1 = Ok d1 ->
    getitem a "end_time" = Ok t2 -> parse t2 = Ok d2 ->
    getitem a "summary" = Ok su ->
    dict_get a "attendees" = Ok at_ ->
    dict_get a "description" = Ok de ->
    create_event su (isoformat d1) (isoformat d2) at_ de w = (Ok ev, w') ->
    dict_get ev "htmlLink" = Ok (PStr link) ->
    process_function_call tc w = (Ok ("Event created: " ++ link), w') /\
    exists req,
      w' = after_insert req w /\
      insert_answer (inserts_done w) req = Ok ev /\
      dateTime (start (body req)) = isoformat d1 /\
      dateTime (end_ (body req)) = isoformat d2.
Proof.
  intros tc a t1 t2 d1 d2 su at_ de ev link w w'
         Hn Hj Ht1 Hd1 Ht2 Hd2 Hsu Hat Hde Hc Hl.
  split.
  - unfold process_function_call. run_m.
    rewrite Hj, Hn. cbn [String.eqb Ascii.eqb Bool.eqb].
    now rewrite Ht1, Hd1, Ht2, Hd2, Hsu, Hat, Hde, Hc, Hl.
  - destruct (create_event_success_inv _ _ _ _ _ _ _ _ Hc)
      as (req & Ha & Hw & _ & _ & Hs & He).
    exists req. auto.
Qed.

(** ** Statements about [run_assistant] *)

(** A [requires_action] poll whose payloads all decode: every pending tool
    call is answered in turn, the answers go out in one batch that lists
    the identifiers in the order of the pending calls, and the loop goes
    round again. *)
Lemma requires_action_batch :
  forall w fuel,
    status (poll_answer (polls_done w)) = "requires_action" ->
    forallb decodable (required_action (poll_answer (polls_done w))) = true ->
    exists outs w1,
      answered (required_action (poll_answer (polls_done w)))
               (after_retrieve w) outs w1 /\
      map tool_call_id outs =
        map id (required_action (poll_answer (polls_done w))) /\
      loop_body w = (Ok Continue, log (SubmitToolOutputs outs) w1) /\
      poll_loop (S fuel) w = poll_loop fuel (log (SubmitToolOutputs outs) w1).
Proof.
  intros w fuel Hs Hd.
  destruct (loop_body_answers w Hs Hd) as (outs & w1 & Ha & Hb).
  exists outs, w1. repeat split; auto.
  - eapply answered_ids; exact Ha.
  - cbn [poll_loop]. now rewrite Hb.
Qed.

(** C2, at the input on which the code departs from it: when the first
    pending tool call of a [requires_action] poll carries a payload that
    [json.loads] rejects, the iteration submits no batch and polling does
    not resume: the decoder's exception leaves [run_assistant] right after
    the poll. *)
Theorem requires_action_malformed_payload_no_batch :
  forall w tc rest e fuel,
    status (poll_answer (polls_done w)) = "requires_action" ->
    required_action (poll_answer (polls_done w)) = tc :: rest ->
    json_loads (arguments (function tc)) = Raise e ->
    loop_body w = (Raise e, after_retrieve w) /\
    poll_loop (S fuel) w = (Raised e, after_retrieve w) /\
    trace (after_retrieve w) = (trace w ++ [RunsRetrieve])%list.
Proof.
  intros w tc rest e fuel Hs Hr Hj.
  assert (Hb : loop_body w = (Raise e, after_retrieve w)).
  { rewrite (loop_body_requires_action w Hs), Hr. cbn [for_tool_calls].
    unfold bind.
    now rewrite (process_function_call_undecodable tc e _ Hj). }
  repeat split; [exact Hb | ].
  cbn [poll_loop]. now rewrite Hb.
Qed.

(** C9: a [requires_action] poll with no pending tool call submits the
    empty batch and goes round again; the iteration sends nothing to the
    calendar provider, whose request count and requests in the trace are
    those of before. *)
Theorem requires_action_empty :
  forall w,
    status (poll_answer (polls_done w)) = "requires_action" ->
    required_action (poll_answer (polls_done w)) = [] ->
    let w' := log (SubmitToolOutputs []) (after_retrieve w) in
    loop_body w = (Ok Continue, w') /\
    trace w' = (trace w ++ [RunsRetrieve; SubmitToolOutputs []])%list /\
    inserts_done w' = inserts_done w /\
    filter is_insert (trace w') = filter is_insert (trace w).
Proof.
  intros w Hs Hr w'. subst w'. repeat split.
  - rewrite (loop_body_requires_action w Hs), Hr. reflexivity.
  - cbn. now rewrite <- app_assoc.
  - cbn. rewrite !filter_app. cbn. now rewrite !app_nil_r.
Qed.

(** C3: when the poll that follows [n] iterations answers [failed],
    [cancelled] or [expired], [run_assistant] returns the fixed failure
    string at once: that poll is the last request of the call, so nothing
    is submitted after it, and no request made during the call reads the
    message list. *)
Theorem run_assistant_run_failed :
  forall n fuel user_input w wn,
    iterate n (started user_input w) = Some wn ->
    In (status (poll_answer (polls_done wn))) ["failed"; "cancelled"; "expired"] ->
    n < fuel ->
    run_assistant fuel user_input w =
      (Returned "Run failed", after_retrieve wn) /\
    trace (after_retrieve wn) = (trace wn ++ [RunsRetrieve])%list /\
    exists added,
      trace (after_retrieve wn) = (trace w ++ added)%list /\
      ~ In MessagesList added.
Proof.
  intros n fuel user_input w wn Hi Hs Hlt.
  destruct (iterate_effect _ _ _ Hi) as [_ (a & Ht & Hn)].
  destruct (started_trace user_input w) as (Ht0 & _ & _).
  split; [ | split; [reflexivity | ] ].
  - unfold run_assistant. fold (started user_input w).
    replace fuel with (n + S (fuel - S n)) by lia.
    rewrite (poll_loop_iterate _ _ _ _ Hi). cbn [poll_loop].
    now rewrite (loop_body_failed wn Hs).
  - exists ([MessagesCreate "user" user_input; RunsCreate] ++ a
            ++ [RunsRetrieve])%list.
    split.
    + cbn [after_retrieve trace]. rewrite Ht, Ht0.
      now rewrite <- !app_assoc.
    + intro Hin.
      apply in_app_or in Hin as [[Hin | [Hin | []]] | Hin];
        try discriminate.
      apply in_app_or in Hin as [Hin | [Hin | []]];
        [ contradiction | discriminate ].
Qed.

(** C4: when the poll that follows [n] iterations answers [completed], the
    loop is left, the message list is read (the last request of the call)
    and [run_assistant] returns the text of the newest message, which is
    the first of the list the provider answers. *)
Theorem run_assistant_completed :
  forall n fuel user_input w wn newest older v more,
    iterate n (started user_input w) = Some wn ->
    status (poll_answer (polls_done wn)) = "completed" ->
    n < fuel ->
    thread_messages = newest :: older ->
    content newest = TextContentBlock v :: more ->
    run_assistant fuel user_input w =
      (Returned v, log MessagesList (after_retrieve wn)).
Proof.
  intros n fuel user_input w wn newest older v more Hi Hs Hlt Hm Hc.
  unfold run_assistant. fold (started user_input w).
  replace fuel with (n + S (fuel - S n)) by lia.
  rewrite (poll_loop_iterate _ _ _ _ Hi). cbn [poll_loop].
  rewrite (loop_body_completed wn Hs).
  unfold read_reply, messages_list. run_m. rewrite Hm. cbn.
  now rewrite Hc.
Qed.

(** Whatever the message list holds, a [completed] poll ends the call with
    the outcome of [messages.data[0].content[0].text.value]. *)
Lemma poll_loop_completed :
  forall fuel w,
    status (poll_answer (polls_done w)) = "completed" ->
    poll_loop (S fuel) w =
      finish (first_text thread_messages,
              log MessagesList (after_retrieve w)).
Proof.
  intros fuel w Hs. cbn [poll_loop]. now rewrite (loop_body_completed w Hs).
Qed.

Lemma terminal_cases :
  forall s,
    terminal s = true ->
    s = "completed" \/ In s ["failed"; "cancelled"; "expired"].
Proof.
  intros s H. unfold terminal in H. cbn in H.
  repeat (apply orb_true_iff in H as [H | H]);
    try discriminate; apply String.eqb_eq in H; cbn; auto.
Qed.

Lemma loop_body_terminal :
  forall w,
    terminal (status (poll_answer (polls_done w))) = true ->
    exists c, loop_body w = (Ok c, after_retrieve w) /\ c <> Continue.
Proof.
  intros w H. apply terminal_cases in H as [H | H].
  - exists Break. rewrite (loop_body_completed w H). split; congruence.
  - exists (Return "Run failed"). rewrite (loop_body_failed w H).
    split; congruence.
Qed.

Lemma finish_not_polling : forall r, fst (finish r) <> Polling.
Proof. intros [[s|e] w]; cbn; congruence. Qed.

(** A terminal status among the answers ends the loop, at that poll or
    before it. *)
Lemma poll_loop_halts_of_terminal :
  forall n w,
    terminal (status (poll_answer (polls_done w + n))) = true ->
    exists fuel, fst (poll_loop fuel w) <> Polling.
Proof.
  induction n as [|n IH]; intros w H.
  - rewrite Nat.add_0_r in H.
    destruct (loop_body_terminal w H) as (c & Hb & Hc).
    exists 1. cbn [poll_loop]. rewrite Hb.
    destruct c; [congruence | apply finish_not_polling | cbn; congruence].
  - destruct (loop_body w) as [[[ | | s]|e] w1] eqn:Hb.
    + destruct (loop_body_continue_effect w w1 Hb) as [Hp _].
      destruct (IH w1) as [fuel Hf].
      { rewrite Hp. now replace (S (polls_done w) + n)
                      with (polls_done w + S n) by lia. }
      exists (S fuel). cbn [poll_loop]. now rewrite Hb.
    + exists 1. cbn [poll_loop]. rewrite Hb. apply finish_not_polling.
    + exists 1. cbn [poll_loop]. rewrite Hb. cbn. congruence.
    + exists 1. cbn [poll_loop]. rewrite Hb. cbn. congruence.
Qed.

(** As long as every payload decodes, the loop ends only on a terminal
    status. *)
Lemma poll_loop_terminal_of_halts :
  (forall k, forallb decodable (required_action (poll_answer k)) = true) ->
  forall fuel w,
    fst (poll_loop fuel w) <> Polling ->
    exists n, terminal (status (poll_answer (polls_done w + n))) = true.
Proof.
  intros Hd. induction fuel as [|fuel IH]; intros w H.
  - cbn in H. congruence.
  - destruct (terminal (status (poll_answer (polls_done w)))) eqn:Ht.
    + exists 0. now rewrite Nat.add_0_r.
    + assert (Hc : exists w1, loop_body w = (Ok Continue, w1)).
      { destruct (status (poll_answer (polls_done w)) =? "requires_action")
          eqn:Hr.
        - apply String.eqb_eq in Hr.
          destruct (loop_body_answers w Hr (Hd _)) as (outs & w1 & _ & Hb).
          eauto.
        - apply String.eqb_neq in Hr. rewrite (loop_body_other w Ht Hr).
          eauto. }
      destruct Hc as [w1 Hb]. cbn [poll_loop] in H. rewrite Hb in H.
      destruct (IH w1 H) as [n Hn].
      destruct (loop_body_continue_effect w w1 Hb) as [Hp _].
      exists (S n). rewrite Hp in Hn.
      now replace (polls_done w + S n) with (S (polls_done w) + n) by lia.
Qed.

(** Any status outside the five the loop tests for, [queued] and
    [in_progress] among them, costs one poll and nothing else, and the loop
    polls again. *)
Lemma other_status_polls_again :
  forall fuel w,
    ~ In (status (poll_answer (polls_done w)))
         ["completed"; "requires_action"; "failed"; "cancelled"; "expired"] ->
    loop_body w = (Ok Continue, after_retrieve w) /\
    poll_loop (S fuel) w = poll_loop fuel (after_retrieve w).
Proof.
  intros fuel w H.
  assert (Hb : loop_body w = (Ok Continue, after_retrieve w)).
  { apply loop_body_other.
    - destruct (terminal _) eqn:Ht; [ | reflexivity ].
      exfalso. apply H. apply terminal_cases in Ht.
      destruct Ht as [-> | [<- | [<- | [<- | []]]]]; cbn; auto 10.
    - intro Hr. apply H. cbn. auto. }
  split; [exact Hb|]. cbn [poll_loop]. now rewrite Hb.
Qed.

(** With payloads that all decode, [run_assistant] ends exactly when some
    poll answers [completed], [failed], [cancelled] or [expired]. *)
Lemma halts_iff_eventually_terminal :
  (forall k, forallb decodable (required_action (poll_answer k)) = true) ->
  forall user_input w, halts user_input w <-> eventually_terminal w.
Proof.
  intros Hd user_input w. unfold halts, eventually_terminal, run_assistant.
  fold (started user_input w).
  destruct (started_trace user_input w) as (_ & Hp & _). rewrite <- Hp.
  split.
  - intros [fuel H]. eapply poll_loop_terminal_of_halts; eauto.
  - intros [n H]. eapply poll_loop_halts_of_terminal; eauto.
Qed.

(** C10, at the input on which the code departs from it: when every poll
    answers [requires_action] with a tool call whose payload [json.loads]
    rejects, no polled status is ever terminal, and yet [run_assistant]
    ends, at its first poll, with the decoder's exception. *)
Theorem run_assistant_halts_without_terminal_status :
  forall tc e user_input w,
    json_loads (arguments (function tc)) = Raise e ->
    (forall k, poll_answer k =
               {| status := "requires_action"; required_action := [tc] |}) ->
    fst (run_assistant 1 user_input w) = Raised e /\
    halts user_input w /\
    ~ eventually_terminal w.
Proof.
  intros tc e user_input w Hj Hp.
  assert (Hr : fst (run_assistant 1 user_input w) = Raised e).
  { unfold run_assistant. fold (started user_input w). cbn [poll_loop].
    rewrite (loop_body_requires_action (started user_input w));
      [ | now rewrite Hp ].
    rewrite Hp. cbn [required_action for_tool_calls]. unfold bind.
    now rewrite (process_function_call_undecodable tc e _ Hj). }
  split; [exact Hr | split].
  - exists 1. rewrite Hr. congruence.
  - intros [n Hn]. rewrite Hp in Hn. cbn in Hn. discriminate.
Qed.

(** ** Further statements about the dispatcher *)

Ltac known_call Hj Hn :=
  unfold process_function_call; run_m;
  rewrite Hj, Hn; cbn [String.eqb Ascii.eqb Bool.eqb].

Lemma create_event_primary :
  forall su st en at_ de w r w',
    create_event su st en at_ de w = (r, w') ->
    w' = w \/
    exists req,
      w' = after_insert req w /\ calendarId req = "primary" /\
      timeZone (start (body req)) = "UTC" /\
      timeZone (end_ (body req)) = "UTC".
Proof.
  intros su st en at_ de w r w' H. unfold create_event in H. run_m.
  destruct (truthy at_).
  - destruct (py_iter at_); inversion H; [right | left; reflexivity].
    eexists. repeat split.
  - inversion H. right. eexists. repeat split.
Qed.

(** Whatever a tool call holds and however it ends (a string or the
    decoder's exception), handling it polls nothing and sends the calendar
    provider at most one request, which is an insert into the primary
    calendar with both times in the zone UTC. *)
Theorem process_function_call_requests :
  forall tc w r w',
    process_function_call tc w = (r, w') ->
    w' = w \/
    exists req,
      w' = after_insert req w /\ calendarId req = "primary" /\
      timeZone (start (body req)) = "UTC" /\
      timeZone (end_ (body req)) = "UTC".
Proof.
  intros tc w r w' H. unfold process_function_call in H. run_m.
  destruct (json_loads (arguments (function tc))) as [a|e];
    [ | inversion H; auto ].
  destruct (name (function tc) =? "create_google_calendar_event");
    [ | inversion H; auto ].
  destruct (getitem a "start_time") as [t1|]; [ | inversion H; auto ].
  destruct (parse t1) as [d1|]; [ | inversion H; auto ].
  destruct (getitem a "end_time") as [t2|]; [ | inversion H; auto ].
  destruct (parse t2) as [d2|]; [ | inversion H; auto ].
  destruct (getitem a "summary") as [su|]; [ | inversion H; auto ].
  destruct (dict_get a "attendees") as [at_|]; [ | inversion H; auto ].
  destruct (dict_get a "description") as [de|]; [ | inversion H; auto ].
  destruct (create_event su (isoformat d1) (isoformat d2) at_ de w)
    as [[ev|e] w1] eqn:Hc;
    apply create_event_primary in Hc.
  - destruct (dict_get ev "htmlLink"); inversion H; subst; exact Hc.
  - inversion H; subst; exact Hc.
Qed.

(** A call of a registered function whose decoded arguments lack a key
    that the registered schema marks as required is answered with the error
    text, and nothing is sent to the calendar. *)
Theorem missing_required_key_rejected :
  forall tc d k w,
    In (name (function tc)) registered_names ->
    json_loads (arguments (function tc)) = Ok (PDict d) ->
    In k (required_keys (name (function tc))) ->
    assoc_lookup k d = None ->
    exists rest,
      process_function_call tc w = (Ok ("Error creating event: " ++ rest), w).
Proof.
  intros tc d k w Hn Hj Hk Hd.
  destruct Hn as [Hn | []]. symmetry in Hn. rewrite Hn in Hk.
  known_call Hj Hn. cbn [getitem].
  destruct (assoc_lookup "start_time" d) as [t1|] eqn:H1;
    [ | eexists; reflexivity ].
  destruct (parse t1) as [d1|]; [ | eexists; reflexivity ].
  destruct (assoc_lookup "end_time" d) as [t2|] eqn:H2;
    [ | eexists; reflexivity ].
  destruct (parse t2) as [d2|]; [ | eexists; reflexivity ].
  destruct (assoc_lookup "summary" d) as [su|] eqn:H3;
    [ | eexists; reflexivity ].
  exfalso. destruct Hk as [<- | [<- | [<- | []]]]; congruence.
Qed.

Lemma create_event_typed :
  forall su st en (at_ : option (list string)) de w,
    create_event su st en (attendees_arg at_) de w =
      let emails := match at_ with Some l => l | None => [] end in
      let req :=
        {| calendarId := "primary";
           body :=
             {| summary := su;
                description := de;
                start := {| dateTime := st; timeZone := "UTC" |};
                end_ := {| dateTime := en; timeZone := "UTC" |};
                attendees := map (fun e => {| email := PStr e |}) emails |};
           sendUpdates := match emails with [] => "none" | _ :: _ => "all" end |} in
      (insert_answer (inserts_done w) req, after_insert req w).
Proof.
  intros su st en [[|e l]|] de w; cbn; unfold create_event; run_m; cbn;
    try reflexivity.
  now rewrite map_map.
Qed.

(** A call that conforms to the registered schema (the three required keys
    present, both times strings that the parser accepts, attendees omitted
    or a list of strings) sends exactly one insert request, computed from
    the arguments as shown, and its answer is the report of what the
    provider replied.  An omitted description is sent as [None]. *)
Theorem schema_conforming_call :
  forall tc d s1 s2 d1 d2 su (at_ : option (list string)) w,
    name (function tc) = "create_google_calendar_event" ->
    json_loads (arguments (function tc)) = Ok (PDict d) ->
    assoc_lookup "start_time" d = Some (PStr s1) ->
    dateutil_parse s1 = Ok d1 ->
    assoc_lookup "end_time" d = Some (PStr s2) ->
    dateutil_parse s2 = Ok d2 ->
    assoc_lookup "summary" d = Some su ->
    dict_get (PDict d) "attendees" = Ok (attendees_arg at_) ->
    let emails := match at_ with Some l => l | None => [] end in
    let req :=
      {| calendarId := "primary";
         body :=
           {| summary := su;
              description := match assoc_lookup "description" d with
                             | Some x => x
                             | None => PNone
                             end;
              start := {| dateTime := isoformat d1; timeZone := "UTC" |};
              end_ := {| dateTime := isoformat d2; timeZone := "UTC" |};
              attendees := map (fun e => {| email := PStr e |}) emails |};
         sendUpdates := match emails with [] => "none" | _ :: _ => "all" end |} in
    process_function_call tc w =
      (Ok (report (insert_answer (inserts_done w) req)), after_insert req w).
Proof.
  intros tc d s1 s2 d1 d2 su at_ w Hn Hj H1 Hp1 H2 Hp2 H3 Ha emails req.
  known_call Hj Hn. cbn [getitem parse].
  rewrite H1. cbn [parse]. rewrite Hp1, H2. cbn [parse].
  rewrite Hp2, H3, Ha.
  assert (Hd : dict_get (PDict d) "description" =
               Ok match assoc_lookup "description" d with
                  | Some x => x
                  | None => PNone
                  end).
  { cbn. now destruct (assoc_lookup "description" d). }
  rewrite Hd.
  pose proof (create_event_typed su (isoformat d1) (isoformat d2) at_
                (match assoc_lookup "description" d with
                 | Some x => x
                 | None => PNone
                 end) w) as Hc.
  cbv zeta in Hc. fold emails in Hc. fold req in Hc. rewrite Hc.
  unfold report.
  destruct (insert_answer (inserts_done w) req) as [ev|e]; [ | reflexivity ].
  destruct (dict_get ev "htmlLink"); reflexivity.
Qed.

(** A value for [attendees] that is true but cannot be iterated (a non-zero
    number, [true]) stops the call inside [create_event]: the [TypeError]
    is reported as text and no request reaches the calendar. *)
Theorem non_iterable_attendees_reported :
  forall tc d s1 s2 d1 d2 su at_ e w,
    name (function tc) = "create_google_calendar_event" ->
    json_loads (arguments (function tc)) = Ok (PDict d) ->
    assoc_lookup "start_time" d = Some (PStr s1) ->
    dateutil_parse s1 = Ok d1 ->
    assoc_lookup "end_time" d = Some (PStr s2) ->
    dateutil_parse s2 = Ok d2 ->
    assoc_lookup "summary" d = Some su ->
    assoc_lookup "attendees" d = Some at_ ->
    truthy at_ = true ->
    py_iter at_ = Raise e ->
    process_function_call tc w =
      (Ok ("Error creating event: " ++ exn_str e), w).
Proof.
  intros tc d s1 s2 d1 d2 su at_ e w Hn Hj H1 Hp1 H2 Hp2 H3 Ha Ht Hi.
  known_call Hj Hn. cbn [getitem dict_get].
  rewrite H1. cbn [parse]. rewrite Hp1, H2. cbn [parse].
  rewrite Hp2, H3, Ha.
  destruct (assoc_lookup "description" d);
    unfold create_event; run_m; now rewrite Ht, Hi.
Qed.



(** When the event the provider returns has no [htmlLink], the call still
    reports success, with the text [None] in place of the link. *)
Theorem event_without_link :
  forall tc a t1 t2 d1 d2 su at_ de fields w w',
    name (function tc) = "create_google_calendar_event" ->
    json_loads (arguments (function tc)) = Ok a ->
    getitem a "start_time" = Ok t1 -> parse t1 = Ok d1 ->
    getitem a "end_time" = Ok t2 -> parse t2 = Ok d2 ->
    getitem a "summary" = Ok su ->
    dict_get a "attendees" = Ok at_ ->
    dict_get a "description" = Ok de ->
    create_event su (isoformat d1) (isoformat d2) at_ de w
      = (Ok (PDict fields), w') ->
    assoc_lookup "htmlLink" fields = None ->
    process_function_call tc w = (Ok "Event created: None", w').
Proof.
  intros tc a t1 t2 d1 d2 su at_ de fields w w'
         Hn Hj Ht1 Hd1 Ht2 Hd2 Hsu Hat Hde Hc Hl.
  known_call Hj Hn.
  rewrite Ht1, Hd1, Ht2, Hd2, Hsu, Hat, Hde, Hc. cbn [dict_get].
  now rewrite Hl.
Qed.

(** The dispatcher knows exactly the functions that [create_assistant]
    registers: with a payload that decodes, a call of a registered name is
    answered with the success or the error text, and a call of any other
    name with the fixed string, the world unchanged. *)
Theorem registered_tool_is_dispatched :
  forall tc a w,
    json_loads (arguments (function tc)) = Ok a ->
    (In (name (function tc)) registered_names ->
     exists rest w',
       process_function_call tc w = (Ok ("Event created: " ++ rest), w') \/
       process_function_call tc w = (Ok ("Error creating event: " ++ rest), w'))
    /\
    (~ In (name (function tc)) registered_names ->
     process_function_call tc w = (Ok "Unknown function called", w)).
Proof.
  intros tc a w Hj. split.
  - intros [Hn | []]. symmetry in Hn. known_call Hj Hn.
    match goal with
    | |- exists rest w', match ?m with _ => _ end = _ \/ _ =>
        destruct m as [[s|e] w1] eqn:Hm
    end.
    + repeat match type of Hm with
      | match ?x with _ => _ end = _ => destruct x; try discriminate
      | (let (_, _) := ?x in _) = _ => destruct x; try discriminate
      end.
      injection Hm as <- <-. eexists _, _. left. reflexivity.
    + eexists _, _. right. reflexivity.
  - intro Hn. eapply process_function_call_unknown; [eassumption|].
    apply String.eqb_neq. intro Heq. apply Hn. left. now symmetry.
Qed.

(** The schema that [create_assistant] registers is coherent with the
    dispatcher: each key it marks required is one it declares, and the
    keys it declares are the five the dispatcher reads. *)
Lemma schema_keys :
  required_keys "create_google_calendar_event"
    = ["summary"; "start_time"; "end_time"] /\
  declared_keys "create_google_calendar_event"
    = ["summary"; "start_time"; "end_time"; "attendees"; "description"] /\
  registered_names = ["create_google_calendar_event"].
Proof. repeat split. Qed.

(** ** Further statements about the run loop *)

Lemma for_tool_calls_app :
  forall pre rest acc w outs w1,
    answered pre w outs w1 ->
    for_tool_calls (pre ++ rest)%list acc w
      = for_tool_calls rest (acc ++ outs)%list w1.
Proof.
  intros pre rest acc w outs w1 Ha. revert acc.
  induction Ha as [w | tc tcs w s0 w1 outs w2 Hp Ha IH]; intro acc.
  - now rewrite app_nil_r.
  - cbn [app for_tool_calls]. unfold bind at 1. rewrite Hp.
    rewrite IH. now rewrite <- app_assoc.
Qed.

Lemma answered_steps :
  forall tcs w outs w',
    answered tcs w outs w' ->
    calendar_steps w w' /\ List.length outs = List.length tcs.
Proof.
  induction 1 as [w | tc tcs w s0 w1 outs w2 Hp Ha [IH1 IH2]].
  - split; [apply calendar_steps_refl | reflexivity].
  - split.
    + eapply calendar_steps_trans; [ | exact IH1 ].
      eapply process_function_call_steps; exact Hp.
    + cbn. congruence.
Qed.

(** When a pending tool call carries a payload the decoder rejects, the
    calls before it have already been carried out (their events stay in
    the calendar) but their answers are never submitted: the iteration
    ends with the decoder's exception, having made calendar requests only
    since the poll. *)
Theorem undecodable_call_drops_earlier_answers :
  forall w pre bad post e fuel,
    status (poll_answer (polls_done w)) = "requires_action" ->
    required_action (poll_answer (polls_done w)) = (pre ++ bad :: post)%list ->
    forallb decodable pre = true ->
    json_loads (arguments (function bad)) = Raise e ->
    exists outs w1,
      answered pre (after_retrieve w) outs w1 /\
      calendar_steps (after_retrieve w) w1 /\
      loop_body w = (Raise e, w1) /\
      poll_loop (S fuel) w = (Raised e, w1).
Proof.
  intros w pre bad post e fuel Hs Hr Hd Hj.
  destruct (for_tool_calls_answered pre [] (after_retrieve w) Hd)
    as (outs & w1 & Ha & _).
  exists outs, w1.
  assert (Hb : loop_body w = (Raise e, w1)).
  { rewrite (loop_body_requires_action w Hs), Hr.
    rewrite (for_tool_calls_app _ _ _ _ _ _ Ha). cbn [for_tool_calls].
    unfold bind.
    now rewrite (process_function_call_undecodable bad e _ Hj). }
  repeat split; auto.
  - apply (answered_steps _ _ _ _ Ha).
  - apply (answered_steps _ _ _ _ Ha).
  - cbn [poll_loop]. now rewrite Hb.
Qed.

Lemma for_tool_calls_inserts :
  forall tcs acc w r w',
    for_tool_calls tcs acc w = (r, w') ->
    inserts_done w <= inserts_done w' <= inserts_done w + List.length tcs.
Proof.
  induction tcs as [|tc tcs IH]; intros acc w r w' H; cbn in H.
  - inversion H. cbn. lia.
  - unfold bind in H.
    destruct (process_function_call tc w) as [[s0|e] w1] eqn:Hp.
    + apply IH in H.
      destruct (process_function_call_effect _ _ _ _ Hp) as [-> | [req ->]];
        cbn in *; lia.
    + inversion H; subst.
      destruct (process_function_call_effect _ _ _ _ Hp) as [-> | [req ->]];
        cbn; lia.
Qed.

(** However an iteration of the loop ends, it has polled exactly once and
    has sent the calendar at most one insert per pending tool call; on a
    status other than [requires_action] it has sent none. *)
Theorem iteration_insert_bound :
  forall w r w',
    loop_body w = (r, w') ->
    polls_done w' = S (polls_done w) /\
    inserts_done w <= inserts_done w'
      <= inserts_done w
         + List.length (required_action (poll_answer (polls_done w))) /\
    (status (poll_answer (polls_done w)) <> "requires_action" ->
     inserts_done w' = inserts_done w).
Proof.
  intros w r w' H.
  destruct (status (poll_answer (polls_done w)) =? "requires_action") eqn:Hr.
  - apply String.eqb_eq in Hr. rewrite (loop_body_requires_action w Hr) in H.
    destruct (for_tool_calls _ _ _) as [[outs|e1] w1] eqn:Hf;
      pose proof (for_tool_calls_steps _ _ _ _ _ Hf) as [Hp _];
      apply for_tool_calls_inserts in Hf;
      inversion H; subst; cbn in *; repeat split; try lia; congruence.
  - unfold loop_body, runs_retrieve in H. run_m. rewrite Hr in H.
    destruct (_ =? "completed");
      [ | destruct (existsb _ _) ];
      inversion H; subst; cbn; repeat split; lia.
Qed.

Lemma loop_body_calls :
  forall w r w',
    loop_body w = (r, w') ->
    exists l, trace w' = (trace w ++ l)%list /\ forallb is_loop_call l = true.
Proof.
  intros w r w' H.
  destruct (status (poll_answer (polls_done w)) =? "requires_action") eqn:Hr.
  - apply String.eqb_eq in Hr. rewrite (loop_body_requires_action w Hr) in H.
    destruct (for_tool_calls _ _ _) as [[outs|e1] w1] eqn:Hf;
      apply for_tool_calls_steps in Hf as [_ (l & Ht & Hl & _)];
      inversion H; subst; clear H.
    + exists (RunsRetrieve :: l ++ [SubmitToolOutputs outs])%list. split.
      * cbn. rewrite Ht. cbn. now rewrite <- !app_assoc.
      * cbn. rewrite forallb_app. cbn. rewrite andb_true_r.
        rewrite forallb_forall in *. intros c Hc. apply Hl in Hc.
        now destruct c.
    + exists (RunsRetrieve :: l). split.
      * rewrite Ht. cbn. now rewrite <- app_assoc.
      * cbn. rewrite forallb_forall in *. intros c Hc. apply Hl in Hc.
        now destruct c.
  - unfold loop_body, runs_retrieve in H. run_m. rewrite Hr in H.
    exists [RunsRetrieve].
    destruct (_ =? "completed");
      [ | destruct (existsb _ _) ];
      inversion H; subst; cbn; auto.
Qed.

Lemma poll_loop_calls :
  forall fuel w,
    exists body tail,
      trace (snd (poll_loop fuel w)) = (trace w ++ body ++ tail)%list /\
      forallb is_loop_call body = true /\
      (tail = [] \/ tail = [MessagesList]).
Proof.
  induction fuel as [|fuel IH]; intro w.
  - exists [], []. cbn. rewrite app_nil_r. auto.
  - cbn [poll_loop].
    destruct (loop_body w) as [[[ | | s0]|e] w1] eqn:Hb;
      destruct (loop_body_calls _ _ _ Hb) as (l & Ht & Hl).
    + destruct (IH w1) as (body & tail & Hb1 & Hb2 & Hb3).
      exists (l ++ body)%list, tail. rewrite Hb1, Ht.
      rewrite forallb_app, Hl, Hb2. rewrite <- !app_assoc. auto.
    + exists l, [MessagesList]. split; [ | auto ].
      unfold read_reply, messages_list. run_m.
      destruct (first_text thread_messages); cbn; rewrite Ht;
        now rewrite <- app_assoc.
    + exists l, []. cbn. rewrite Ht, app_nil_r. auto.
    + exists l, []. cbn. rewrite Ht, app_nil_r. auto.
Qed.

(** Whatever the providers answer and however long it runs, a call of
    [run_assistant] posts the user message once and creates one run, in
    that order and before anything else; all it does afterwards is poll,
    insert events and submit tool outputs, except for a single read of the
    message list, which, when it happens, is its last request. *)
Theorem run_assistant_request_discipline :
  forall fuel user_input w,
    exists body tail,
      trace (snd (run_assistant fuel user_input w)) =
        (trace w ++ [MessagesCreate "user" user_input; RunsCreate]
                 ++ body ++ tail)%list /\
      forallb is_loop_call body = true /\
      (tail = [] \/ tail = [MessagesList]).
Proof.
  intros fuel user_input w. unfold run_assistant.
  fold (started user_input w).
  destruct (poll_loop_calls fuel (started user_input w))
    as (body & tail & Ht & Hb & Hl).
  exists body, tail. rewrite Ht.
  destruct (started_trace user_input w) as (Ht0 & _ & _). rewrite Ht0.
  rewrite <- !app_assoc. auto.
Qed.

(** ** Statements about [authenticate] *)

Ltac not_in Hin :=
  exfalso; cbn in Hin;
  repeat (destruct Hin as [Hin | Hin]; [ discriminate Hin | ]);
  exact Hin.

Ltac auth_cases H :=
  unfold authenticate, persist_and_build in H;
  repeat match type of H with
  | context [match ?x with _ => _ end] => destruct x eqn:?
  | context [if ?x then _ else _] => destruct x eqn:?
  end;
  inversion H; subst; clear H.

Lemma authenticate_persists_session_aux :
  forall h c h',
    authenticate h = (Ok c, h') ->
    (token_json h' = token_json h /\
     exists content,
       token_json h = Some content /\
       from_authorized_user_file content = Ok c /\ valid c = true)
    \/ token_json h' = Some (to_json c).
Proof.
  intros h c h' H. auth_cases H; cbn; eauto 10.
Qed.

(** When [authenticate] succeeds, either the cached session was valid and
    [token.json] is left as it was, or [token.json] now holds the
    serialization of exactly the session the service is built on. *)
Theorem authenticate_persists_session :
  forall h c h',
    authenticate h = (Ok c, h') ->
    (token_json h' = token_json h /\
     exists content,
       token_json h = Some content /\
       from_authorized_user_file content = Ok c /\ valid c = true)
    \/ token_json h' = Some (to_json c).
Proof.
  exact authenticate_persists_session_aux.
Qed.

(** When [authenticate] fails (the cached token is unreadable, the refresh
    is refused, the consent flow fails), [token.json] is left as it was and
    no service is built. *)
Theorem authenticate_failure_keeps_token :
  forall h e h',
    authenticate h = (Raise e, h') ->
    token_json h' = token_json h /\
    exists added,
      host_trace h' = (host_trace h ++ added)%list /\
      ~ In ServiceBuild added /\
      (forall content, ~ In (TokenWrite content) added).
Proof.
  intros h e h' H. auth_cases H;
    (split; [cbn; congruence|]);
    cbn; rewrite <- ?app_assoc;
    eexists; (split; [reflexivity|]);
    (split; [ intro Hin; not_in Hin | intros content Hin; not_in Hin ]).
Qed.


(** Authenticating again after a success that left a valid session, with a
    loader that reads back what [to_json] writes, takes the short path:
    the same session is returned, [token.json] is not rewritten, and there
    is neither a refresh nor a consent prompt. *)
Theorem authenticate_twice :
  forall h c h1,
    authenticate h = (Ok c, h1) ->
    valid c = true ->
    from_authorized_user_file (to_json c) = Ok c ->
    exists content,
      token_json h1 = Some content /\
      authenticate h1 =
        (Ok c, {| token_json := Some content;
                  host_trace := (host_trace h1
                                  ++ [TokenLoad content; ServiceBuild])%list |}).
Proof.
  intros h c h1 H Hv Hl.
  assert (Hk : exists content,
             token_json h1 = Some content /\
             from_authorized_user_file content = Ok c).
  { destruct (authenticate_persists_session_aux h c h1 H)
      as [(He & content & Hc & Hf & _) | Hw].
    - exists content. rewrite He. auto.
    - exists (to_json c). auto. }
  destruct Hk as (content & Htok & Hf). exists content.
  split; [exact Htok|].
  unfold authenticate. rewrite Htok, Hf, Hv. unfold host_log. cbn.
  now rewrite Htok, <- app_assoc.
Qed.

End Program.

(** * The statements on the scripted providers *)

Local Abbreviation sample_pfc :=
  (process_function_call Sample.json_loads Sample.datetime
     Sample.dateutil_parse Sample.isoformat Sample.container_repr
     Sample.insert_answer).

Local Abbreviation sample_run polls :=
  (run_assistant Sample.json_loads Sample.datetime Sample.dateutil_parse
     Sample.isoformat Sample.container_repr Sample.insert_answer polls
     Sample.thread_messages).

Local Abbreviation sample_body polls :=
  (loop_body Sample.json_loads Sample.datetime Sample.dateutil_parse
     Sample.isoformat Sample.container_repr Sample.insert_answer polls).

Lemma known_function_malformed_payload_raises_witness :
  sample_pfc Sample.truncated_call Sample.w0 =
    (Raise (JSONDecodeError
              "Expecting property name enclosed in double quotes: line 1 column 2 (char 1)"),
     Sample.w0).
Proof.
  apply known_function_malformed_payload_raises; reflexivity.
Defined.

Lemma unknown_function_malformed_payload_raises_witness :
  sample_pfc Sample.stray_call Sample.w0 =
    (Raise (JSONDecodeError
              "Expecting property name enclosed in double quotes: line 1 column 2 (char 1)"),
     Sample.w0).
Proof.
  apply unknown_function_malformed_payload_raises;
    [ discriminate | reflexivity ].
Defined.

Lemma process_function_call_success_witness :
  exists w',
    sample_pfc Sample.meeting_call Sample.w0 =
      (Ok ("Event created: " ++ Sample.event_link), w') /\
    exists req,
      w' = after_insert req Sample.w0 /\
      Sample.insert_answer 0 req = Ok Sample.created_event /\
      dateTime (start (body req)) = "2024-05-06T14:00:00" /\
      dateTime (end_ (body req)) = "2024-05-06T15:00:00".
Proof.
  eexists.
  apply (process_function_call_success
           Sample.json_loads Sample.datetime Sample.dateutil_parse
           Sample.isoformat Sample.container_repr Sample.insert_answer
           Sample.meeting_call Sample.meeting_arguments
           (PStr "May 6 2024 2pm") (PStr "2024-05-06T15:00:00")
           "2024-05-06T14:00:00" "2024-05-06T15:00:00"
           (PStr "Team meeting")
           (PList [PStr "alice@example.com"; PStr "bob@example.com"])
           PNone Sample.created_event Sample.event_link Sample.w0);
    first [ reflexivity | cbv; reflexivity ].
Defined.

Lemma requires_action_malformed_payload_no_batch_witness :
  sample_body Sample.polls_truncated Sample.w0 =
    (Raise (JSONDecodeError
              "Expecting property name enclosed in double quotes: line 1 column 2 (char 1)"),
     after_retrieve Sample.w0) /\
  poll_loop Sample.json_loads Sample.datetime Sample.dateutil_parse
    Sample.isoformat Sample.container_repr Sample.insert_answer
    Sample.polls_truncated Sample.thread_messages 3 Sample.w0 =
    (Raised (JSONDecodeError
               "Expecting property name enclosed in double quotes: line 1 column 2 (char 1)"),
     after_retrieve Sample.w0) /\
  trace (after_retrieve Sample.w0) = [RunsRetrieve].
Proof.
  apply (requires_action_malformed_payload_no_batch
           Sample.json_loads Sample.datetime Sample.dateutil_parse
           Sample.isoformat Sample.container_repr Sample.insert_answer
           Sample.polls_truncated Sample.thread_messages
           Sample.w0 Sample.truncated_call []);
    reflexivity.
Defined.

Lemma requires_action_empty_witness :
  sample_body Sample.polls_idle Sample.w0 =
    (Ok Continue,
     {| polls_done := 1; inserts_done := 0;
        trace := [RunsRetrieve; SubmitToolOutputs []] |}).
Proof.
  apply (requires_action_empty
           Sample.json_loads Sample.datetime Sample.dateutil_parse
           Sample.isoformat Sample.container_repr Sample.insert_answer
           Sample.polls_idle Sample.w0);
    reflexivity.
Defined.

Lemma run_assistant_run_failed_witness :
  sample_run Sample.polls_failing 5 "Schedule a team meeting" Sample.w0 =
    (Returned "Run failed",
     {| polls_done := 2; inserts_done := 0;
        trace := [MessagesCreate "user" "Schedule a team meeting";
                  RunsCreate; RunsRetrieve; RunsRetrieve] |}) /\
  [MessagesCreate "user" "Schedule a team meeting";
   RunsCreate; RunsRetrieve; RunsRetrieve] =
    [MessagesCreate "user" "Schedule a team meeting";
     RunsCreate; RunsRetrieve; RunsRetrieve] /\
  exists added,
    [MessagesCreate "user" "Schedule a team meeting";
     RunsCreate; RunsRetrieve; RunsRetrieve] = added /\
    ~ In MessagesList added.
Proof.
  apply (run_assistant_run_failed
           Sample.json_loads Sample.datetime Sample.dateutil_parse
           Sample.isoformat Sample.container_repr Sample.insert_answer
           Sample.polls_failing Sample.thread_messages
           1 5 "Schedule a team meeting" Sample.w0
           {| polls_done := 1; inserts_done := 0;
              trace := [MessagesCreate "user" "Schedule a team meeting";
                        RunsCreate; RunsRetrieve] |}).
  - reflexivity.
  - cbn. auto.
  - lia.
Defined.

Lemma run_assistant_completed_witness :
  exists w',
    sample_run Sample.polls_meeting 10 "Schedule a team meeting" Sample.w0 =
      (Returned ("Your meeting is booked: " ++ Sample.event_link), w') /\
    map is_insert (trace w') =
      [false; false; false; false; true; false; false; false; false].
Proof.
  eexists. split.
  - eapply (run_assistant_completed
              Sample.json_loads Sample.datetime Sample.dateutil_parse
              Sample.isoformat Sample.container_repr Sample.insert_answer
              Sample.polls_meeting Sample.thread_messages
              3 10 "Schedule a team meeting" Sample.w0).
    + vm_compute. reflexivity.
    + reflexivity.
    + lia.
    + reflexivity.
    + reflexivity.
  - reflexivity.
Defined.

Lemma run_assistant_halts_without_terminal_status_witness :
  fst (sample_run Sample.polls_truncated 1 "Schedule a team meeting" Sample.w0)
  = Raised (JSONDecodeError
              "Expecting property name enclosed in double quotes: line 1 column 2 (char 1)") /\
  halts Sample.json_loads Sample.datetime Sample.dateutil_parse
        Sample.isoformat Sample.container_repr Sample.insert_answer
        Sample.polls_truncated Sample.thread_messages
        "Schedule a team meeting" Sample.w0 /\
  ~ eventually_terminal Sample.polls_truncated Sample.w0.
Proof.
  apply (run_assistant_halts_without_terminal_status
           Sample.json_loads Sample.datetime Sample.dateutil_parse
           Sample.isoformat Sample.container_repr Sample.insert_answer
           Sample.polls_truncated Sample.thread_messages
           Sample.truncated_call).
  - reflexivity.
  - intro k. reflexivity.
Defined.

Lemma process_function_call_known_shape_witness :
  exists s w',
    sample_pfc Sample.meeting_call Sample.w0 = (Ok s, w') /\
    exists rest,
      s = "Event created: " ++ rest \/ s = "Error creating event: " ++ rest.
Proof.
  apply (process_function_call_known_shape
           Sample.json_loads Sample.datetime Sample.dateutil_parse
           Sample.isoformat Sample.container_repr Sample.insert_answer
           Sample.meeting_call Sample.meeting_arguments);
    reflexivity.
Defined.

Lemma unknown_function_decoded_witness :
  sample_pfc {| id := "call_4";
                function := {| name := "delete_google_calendar_event";
                               arguments := Sample.meeting_payload |} |}
             Sample.w0
  = (Ok "Unknown function called", Sample.w0).
Proof.
  apply (unknown_function_decoded
           Sample.json_loads Sample.datetime Sample.dateutil_parse
           Sample.isoformat Sample.container_repr Sample.insert_answer
           _ Sample.meeting_arguments);
    [ discriminate | reflexivity ].
Defined.

Lemma missing_start_time_reported_witness :
  process_function_call
    (fun _ => Ok (PDict [("summary", PStr "Team meeting")]))
    Sample.datetime Sample.dateutil_parse Sample.isoformat
    Sample.container_repr Sample.insert_answer
    Sample.meeting_call Sample.w0
  = (Ok "Error creating event: 'start_time'", Sample.w0).
Proof.
  apply (missing_start_time_reported
           (fun _ => Ok (PDict [("summary", PStr "Team meeting")]))
           Sample.datetime Sample.dateutil_parse Sample.isoformat
           Sample.container_repr Sample.insert_answer
           Sample.meeting_call [("summary", PStr "Team meeting")]);
    reflexivity.
Defined.

Lemma requires_action_batch_witness :
  exists outs w1,
    answered Sample.json_loads Sample.datetime Sample.dateutil_parse
      Sample.isoformat Sample.container_repr Sample.insert_answer
      [Sample.meeting_call]
      (after_retrieve (after_retrieve Sample.w0)) outs w1 /\
    map tool_call_id outs = ["call_1"] /\
    sample_body Sample.polls_meeting (after_retrieve Sample.w0) =
      (Ok Continue, log (SubmitToolOutputs outs) w1) /\
    poll_loop Sample.json_loads Sample.datetime Sample.dateutil_parse
      Sample.isoformat Sample.container_repr Sample.insert_answer
      Sample.polls_meeting Sample.thread_messages 3
      (after_retrieve Sample.w0) =
    poll_loop Sample.json_loads Sample.datetime Sample.dateutil_parse
      Sample.isoformat Sample.container_repr Sample.insert_answer
      Sample.polls_meeting Sample.thread_messages 2
      (log (SubmitToolOutputs outs) w1).
Proof.
  apply (requires_action_batch
           Sample.json_loads Sample.datetime Sample.dateutil_parse
           Sample.isoformat Sample.container_repr Sample.insert_answer
           Sample.polls_meeting Sample.thread_messages
           (after_retrieve Sample.w0) 2);
    reflexivity.
Defined.

Lemma other_status_polls_again_witness :
  sample_body Sample.polls_meeting Sample.w0 =
    (Ok Continue, after_retrieve Sample.w0) /\
  poll_loop Sample.json_loads Sample.datetime Sample.dateutil_parse
    Sample.isoformat Sample.container_repr Sample.insert_answer
    Sample.polls_meeting Sample.thread_messages 4 Sample.w0 =
  poll_loop Sample.json_loads Sample.datetime Sample.dateutil_parse
    Sample.isoformat Sample.container_repr Sample.insert_answer
    Sample.polls_meeting Sample.thread_messages 3 (after_retrieve Sample.w0).
Proof.
  apply (other_status_polls_again
           Sample.json_loads Sample.datetime Sample.dateutil_parse
           Sample.isoformat Sample.container_repr Sample.insert_answer
           Sample.polls_meeting Sample.thread_messages 3 Sample.w0).
  cbn. intros [H | [H | [H | [H | [H | []]]]]]; discriminate.
Defined.

Lemma halts_iff_eventually_terminal_witness :
  halts Sample.json_loads Sample.datetime Sample.dateutil_parse
        Sample.isoformat Sample.container_repr Sample.insert_answer
        Sample.polls_meeting Sample.thread_messages
        "Schedule a team meeting" Sample.w0
  <-> eventually_terminal Sample.polls_meeting Sample.w0.
Proof.
  apply (halts_iff_eventually_terminal
           Sample.json_loads Sample.datetime Sample.dateutil_parse
           Sample.isoformat Sample.container_repr Sample.insert_answer
           Sample.polls_meeting Sample.thread_messages).
  intros [|[|[|k]]]; reflexivity.
Defined.

Lemma process_function_call_requests_witness :
  snd (sample_pfc Sample.meeting_call Sample.w0) = Sample.w0 \/
  exists req,
    snd (sample_pfc Sample.meeting_call Sample.w0) = after_insert req Sample.w0 /\
    calendarId req = "primary" /\
    timeZone (start (body req)) = "UTC" /\
    timeZone (end_ (body req)) = "UTC".
Proof.
  apply (process_function_call_requests
           Sample.json_loads Sample.datetime Sample.dateutil_parse
           Sample.isoformat Sample.container_repr Sample.insert_answer
           Sample.meeting_call Sample.w0
           (fst (sample_pfc Sample.meeting_call Sample.w0))).
  reflexivity.
Defined.

Lemma missing_required_key_rejected_witness :
  exists rest,
    process_function_call
      (fun _ => Ok (PDict [("start_time", PStr "May 6 2024 2pm");
                           ("end_time", PStr "2024-05-06T15:00:00")]))
      Sample.datetime Sample.dateutil_parse Sample.isoformat
      Sample.container_repr Sample.insert_answer
      Sample.meeting_call Sample.w0
    = (Ok ("Error creating event: " ++ rest), Sample.w0).
Proof.
  apply (missing_required_key_rejected
           (fun _ => Ok (PDict [("start_time", PStr "May 6 2024 2pm");
                                ("end_time", PStr "2024-05-06T15:00:00")]))
           Sample.datetime Sample.dateutil_parse Sample.isoformat
           Sample.container_repr Sample.insert_answer
           Sample.meeting_call
           [("start_time", PStr "May 6 2024 2pm");
            ("end_time", PStr "2024-05-06T15:00:00")]
           "summary").
  - cbn. auto.
  - reflexivity.
  - cbn. auto.
  - reflexivity.
Defined.

Lemma schema_conforming_call_witness :
  sample_pfc Sample.meeting_call Sample.w0 =
    (Ok ("Event created: " ++ Sample.event_link),
     after_insert
       {| calendarId := "primary";
          body :=
            {| summary := PStr "Team meeting";
               description := PNone;
               start := {| dateTime := "2024-05-06T14:00:00";
                           timeZone := "UTC" |};
               end_ := {| dateTime := "2024-05-06T15:00:00";
                          timeZone := "UTC" |};
               attendees := [ {| email := PStr "alice@example.com" |};
                              {| email := PStr "bob@example.com" |} ] |};
          sendUpdates := "all" |}
       Sample.w0).
Proof.
  apply (schema_conforming_call
           Sample.json_loads Sample.datetime Sample.dateutil_parse
           Sample.isoformat Sample.container_repr Sample.insert_answer
           Sample.meeting_call
           [("summary", PStr "Team meeting");
            ("start_time", PStr "May 6 2024 2pm");
            ("end_time", PStr "2024-05-06T15:00:00");
            ("attendees",
             PList [PStr "alice@example.com"; PStr "bob@example.com"])]
           "May 6 2024 2pm" "2024-05-06T15:00:00"
           "2024-05-06T14:00:00" "2024-05-06T15:00:00"
           (PStr "Team meeting")
           (Some ["alice@example.com"; "bob@example.com"])
           Sample.w0);
    reflexivity.
Defined.

Lemma non_iterable_attendees_reported_witness :
  process_function_call
    (fun _ => Ok (PDict [("summary", PStr "Team meeting");
                         ("start_time", PStr "May 6 2024 2pm");
                         ("end_time", PStr "2024-05-06T15:00:00");
                         ("attendees", PInt 3)]))
    Sample.datetime Sample.dateutil_parse Sample.isoformat
    Sample.container_repr Sample.insert_answer
    Sample.meeting_call Sample.w0
  = (Ok "Error creating event: 'int' object is not iterable", Sample.w0).
Proof.
  apply (non_iterable_attendees_reported
           (fun _ => Ok (PDict [("summary", PStr "Team meeting");
                                ("start_time", PStr "May 6 2024 2pm");
                                ("end_time", PStr "2024-05-06T15:00:00");
                                ("attendees", PInt 3)]))
           Sample.datetime Sample.dateutil_parse Sample.isoformat
           Sample.container_repr Sample.insert_answer
           Sample.meeting_call
           [("summary", PStr "Team meeting");
            ("start_time", PStr "May 6 2024 2pm");
            ("end_time", PStr "2024-05-06T15:00:00");
            ("attendees", PInt 3)]
           "May 6 2024 2pm" "2024-05-06T15:00:00"
           "2024-05-06T14:00:00" "2024-05-06T15:00:00"
           (PStr "Team meeting") (PInt 3)
           (TypeError "'int' object is not iterable") Sample.w0);
    reflexivity.
Defined.


Lemma event_without_link_witness :
  process_function_call
    Sample.json_loads Sample.datetime Sample.dateutil_parse Sample.isoformat
    Sample.container_repr
    (fun _ _ => Ok (PDict [("kind", PStr "calendar#event")]))
    Sample.meeting_call Sample.w0
  = (Ok "Event created: None",
     snd (create_event
            (fun _ _ => Ok (PDict [("kind", PStr "calendar#event")]))
            (PStr "Team meeting")
            "2024-05-06T14:00:00" "2024-05-06T15:00:00"
            (PList [PStr "alice@example.com"; PStr "bob@example.com"])
            PNone Sample.w0)).
Proof.
  apply (event_without_link
           Sample.json_loads Sample.datetime Sample.dateutil_parse
           Sample.isoformat Sample.container_repr
           (fun _ _ => Ok (PDict [("kind", PStr "calendar#event")]))
           Sample.meeting_call Sample.meeting_arguments
           (PStr "May 6 2024 2pm") (PStr "2024-05-06T15:00:00")
           "2024-05-06T14:00:00" "2024-05-06T15:00:00"
           (PStr "Team meeting")
           (PList [PStr "alice@example.com"; PStr "bob@example.com"])
           PNone [("kind", PStr "calendar#event")] Sample.w0);
    reflexivity.
Defined.

Lemma registered_tool_is_dispatched_witness :
  (In "create_google_calendar_event" registered_names ->
   exists rest w',
     sample_pfc Sample.meeting_call Sample.w0
       = (Ok ("Event created: " ++ rest), w') \/
     sample_pfc Sample.meeting_call Sample.w0
       = (Ok ("Error creating event: " ++ rest), w')) /\
  (~ In "create_google_calendar_event" registered_names ->
   sample_pfc Sample.meeting_call Sample.w0
     = (Ok "Unknown function called", Sample.w0)).
Proof.
  apply (registered_tool_is_dispatched
           Sample.json_loads Sample.datetime Sample.dateutil_parse
           Sample.isoformat Sample.container_repr Sample.insert_answer
           Sample.meeting_call Sample.meeting_arguments Sample.w0).
  reflexivity.
Defined.

Lemma undecodable_call_drops_earlier_answers_witness :
  exists outs w1,
    answered Sample.json_loads Sample.datetime Sample.dateutil_parse
      Sample.isoformat Sample.container_repr Sample.insert_answer
      [Sample.meeting_call] (after_retrieve Sample.w0) outs w1 /\
    calendar_steps (after_retrieve Sample.w0) w1 /\
    sample_body
      (fun _ => Sample.answer "requires_action"
                  [Sample.meeting_call; Sample.truncated_call])
      Sample.w0
    = (Raise (JSONDecodeError
                "Expecting property name enclosed in double quotes: line 1 column 2 (char 1)"),
       w1) /\
    poll_loop Sample.json_loads Sample.datetime Sample.dateutil_parse
      Sample.isoformat Sample.container_repr Sample.insert_answer
      (fun _ => Sample.answer "requires_action"
                  [Sample.meeting_call; Sample.truncated_call])
      Sample.thread_messages 2 Sample.w0
    = (Raised (JSONDecodeError
                 "Expecting property name enclosed in double quotes: line 1 column 2 (char 1)"),
       w1).
Proof.
  apply (undecodable_call_drops_earlier_answers
           Sample.json_loads Sample.datetime Sample.dateutil_parse
           Sample.isoformat Sample.container_repr Sample.insert_answer
           (fun _ => Sample.answer "requires_action"
                       [Sample.meeting_call; Sample.truncated_call])
           Sample.thread_messages
           Sample.w0 [Sample.meeting_call] Sample.truncated_call []);
    reflexivity.
Defined.

Lemma iteration_insert_bound_witness :
  polls_done (snd (sample_body Sample.polls_meeting (after_retrieve Sample.w0)))
    = 2 /\
  0 <= inserts_done
         (snd (sample_body Sample.polls_meeting (after_retrieve Sample.w0)))
    <= 0 + 1 /\
  ("requires_action" <> "requires_action" ->
   inserts_done
     (snd (sample_body Sample.polls_meeting (after_retrieve Sample.w0))) = 0).
Proof.
  apply (iteration_insert_bound
           Sample.json_loads Sample.datetime Sample.dateutil_parse
           Sample.isoformat Sample.container_repr Sample.insert_answer
           Sample.polls_meeting (after_retrieve Sample.w0)
           (fst (sample_body Sample.polls_meeting (after_retrieve Sample.w0)))).
  reflexivity.
Defined.

Local Abbreviation sample_auth :=
  (authenticate SampleAuth.from_authorized_user_file SampleAuth.refresh
     SampleAuth.consent_flow SampleAuth.to_json).

Lemma authenticate_persists_session_witness :
  (token_json (snd (sample_auth SampleAuth.stale_token))
     = token_json SampleAuth.stale_token /\
   exists content,
     token_json SampleAuth.stale_token = Some content /\
     SampleAuth.from_authorized_user_file content = Ok SampleAuth.fresh /\
     valid SampleAuth.fresh = true)
  \/ token_json (snd (sample_auth SampleAuth.stale_token))
     = Some (SampleAuth.to_json SampleAuth.fresh).
Proof.
  apply (authenticate_persists_session
           SampleAuth.from_authorized_user_file SampleAuth.refresh
           SampleAuth.consent_flow SampleAuth.to_json
           SampleAuth.stale_token SampleAuth.fresh).
  reflexivity.
Defined.

Lemma authenticate_failure_keeps_token_witness :
  token_json
    (snd (authenticate SampleAuth.from_authorized_user_file
            SampleAuth.refresh_revoked SampleAuth.consent_flow
            SampleAuth.to_json SampleAuth.stale_token))
    = token_json SampleAuth.stale_token /\
  exists added,
    host_trace
      (snd (authenticate SampleAuth.from_authorized_user_file
              SampleAuth.refresh_revoked SampleAuth.consent_flow
              SampleAuth.to_json SampleAuth.stale_token))
      = (host_trace SampleAuth.stale_token ++ added)%list /\
    ~ In ServiceBuild added /\
    (forall content, ~ In (TokenWrite content) added).
Proof.
  apply (authenticate_failure_keeps_token
           SampleAuth.from_authorized_user_file SampleAuth.refresh_revoked
           SampleAuth.consent_flow SampleAuth.to_json
           SampleAuth.stale_token
           (LibraryError "RefreshError" "invalid_grant: Token has been revoked")).
  reflexivity.
Defined.


Lemma authenticate_twice_witness :
  exists content,
    token_json (snd (sample_auth SampleAuth.no_token)) = Some content /\
    sample_auth (snd (sample_auth SampleAuth.no_token)) =
      (Ok SampleAuth.fresh,
       {| token_json := Some content;
          host_trace :=
            (host_trace (snd (sample_auth SampleAuth.no_token))
               ++ [TokenLoad content; ServiceBuild])%list |}).
Proof.
  apply (authenticate_twice
           SampleAuth.from_authorized_user_file SampleAuth.refresh
           SampleAuth.consent_flow SampleAuth.to_json
           SampleAuth.no_token SampleAuth.fresh);
    reflexivity.
Defined.
